(** * revscrap: review scraper for the App Store and the Play Store

    A shallow embedding of [scraper.py] and of the request handler of
    [app.py], with the properties of the URL classifier, the identifier
    extraction, the Play Store pagination loop and the review normalizer.

    Python values are embedded as follows: [str] is [string], [int] is [Z],
    a [dict] with string keys whose order is irrelevant (a raw review) is a
    [gmap string _], a [dict] whose key order is observable (the [dataset]
    of [_format_generic], whose keys become the header row) is an association
    list, and a raised exception is the [Raise] case of [result]. *)

From Stdlib Require Import ZArith Ascii String List Lia.
From stdpp Require Import base option list strings gmap.

Local Open Scope Z_scope.

(** ** Exceptions and results *)

(** The exceptions the modelled code can raise.  Only the handler's
    [ValueError] carries a message taken from the source; errors raised
    inside library calls carry the empty message. *)
Inductive exn : Type :=
| KeyError
| IndexError
| TypeError
| AttributeError
| ValueError (msg : string)
| PreventUpdate.

Inductive result (A : Type) : Type :=
| Ok (a : A)
| Raise (e : exn).
Arguments Ok {A} a.
Arguments Raise {A} e.

Global Instance result_ret : MRet result := λ A, @Ok A.
Global Instance result_bind : MBind result := λ A B k r,
  match r with
  | Ok a => k a
  | Raise e => Raise e
  end.
Global Instance result_fmap : FMap result := λ A B f r,
  match r with
  | Ok a => Ok (f a)
  | Raise e => Raise e
  end.

Definition is_ok {A : Type} (r : result A) : bool :=
  match r with Ok _ => true | Raise _ => false end.

(** ** Python string operations *)

Module PyStr.

(** [sub in s]. *)
Fixpoint contains (sub s : string) : bool :=
  if String.prefix sub s then true
  else match s with
       | EmptyString => false
       | String _ t => contains sub t
       end.

(** [s.split(sep)] for a separator of one character, which is what every
    call site passes ("/", "?" and "&"). *)
Fixpoint split (sep : ascii) (s : string) : list string :=
  match s with
  | EmptyString => [EmptyString]
  | String c t =>
      if Ascii.eqb c sep then EmptyString :: split sep t
      else match split sep t with
           | seg :: rest => String c seg :: rest
           | [] => [String c EmptyString]
           end
  end.

(** [sep.join(parts)], used to state what [split] returns. *)
Fixpoint join (sep : ascii) (parts : list string) : string :=
  match parts with
  | [] => EmptyString
  | [p] => p
  | p :: rest => p +:+ String sep (join sep rest)
  end.

(** The scan of [s.replace(old, new)] for a non-empty [old]: occurrences
    are taken from left to right and do not overlap; [skip] counts the
    characters of a match that are still to be dropped. *)
Fixpoint replace_go (old new s : string) (skip : nat) : string :=
  match s with
  | EmptyString => EmptyString
  | String c t =>
      match skip with
      | S k => replace_go old new t k
      | O =>
          if String.prefix old s
          then new +:+ replace_go old new t (String.length old - 1)
          else String c (replace_go old new t 0)
      end
  end.

Fixpoint interleave (new s : string) : string :=
  match s with
  | EmptyString => EmptyString
  | String c t => String c (new +:+ interleave new t)
  end.

(** [s.replace(old, new)]; with an empty [old] Python inserts [new]
    before every character and at the end. *)
Definition replace (old new s : string) : string :=
  match old with
  | EmptyString => new +:+ interleave new s
  | String _ _ => replace_go old new s 0
  end.

(** [s.removeprefix(p)]: what "a literal prefix stripped" means. *)
Definition removeprefix (p s : string) : string :=
  if String.prefix p s
  then String.substring (String.length p) (String.length s - String.length p) s
  else s.

End PyStr.

(** [xs[i]] on a list, negative indices counting from the end. *)
Definition py_index {A : Type} (xs : list A) (i : Z) : result A :=
  let n := Z.of_nat (length xs) in
  let j := if i <? 0 then i + n else i in
  if (j <? 0) || (n <=? j) then Raise IndexError
  else match xs !! Z.to_nat j with
       | Some x => Ok x
       | None => Raise IndexError
       end.

(** ** scraper.py: identifier extraction *)

Definition get_app_id_name_from_appstore_url (url : string)
  : result (string * string) :=
  last_seg ← py_index (PyStr.split "/" url) (-1);
  let app_id := PyStr.replace "id" "" last_seg in
  app_name ← py_index (PyStr.split "/" url) (-2);
  Ok (app_id, app_name).

Definition get_app_id_from_playstore_url (url : string) : result string :=
  a ← py_index (PyStr.split "/" url) (-1);
  b ← py_index (PyStr.split "?" a) (-1);
  c ← py_index (PyStr.split "&" b) 0;
  Ok (PyStr.replace "id=" "" c).

(** ** app.py: the request handler *)

Section Handler.
(** What the handler returns on success (the download payload), and the
    rest of each branch once the identifiers are known: retrieval,
    formatting and [dcc.send_data_frame]. *)
Context {Payload : Type}.
Variable appstore_export : string → string → result Payload.
Variable playstore_export : string → result Payload.

(** [n == 0] for a callback counter, which Dash passes as [None] or an
    integer. *)
Definition counter_is_zero (n : option Z) : bool :=
  match n with
  | Some k => k =? 0
  | None => false
  end.

Definition start_review_scraping
    (n_clicks n_submits : option Z) (url : string) : result Payload :=
  if counter_is_zero n_clicks && counter_is_zero n_submits then
    Raise PreventUpdate
  else if PyStr.contains "apps.apple.com" url then
    '(app_id, app_name) ← get_app_id_name_from_appstore_url url;
    appstore_export app_id app_name
  else if PyStr.contains "play.google.com" url then
    app_id ← get_app_id_from_playstore_url url;
    playstore_export app_id
  else
    Raise (ValueError "Invalid url. Make sure to use a Playstore or Appstore url.").
End Handler.

(** ** scraper.py: Play Store pagination *)

Section Fetcher.
(** The external [reviews] call of [google_play_scraper]: a raw review type,
    an opaque continuation token, and the call itself, which takes the
    application id, the token of the previous page ([None] on the first
    call), language, country and page size, and returns a page with the
    next token.  The sort order and the score filter are constants of the
    call and are left out. *)
Context {Review Token : Type}.
Variable reviews :
  string → option Token → string → string → Z → list Review * option Token.

(** The [while] loop; one unit of [fuel] per iteration. [None] means the
    fuel ran out before the loop ended. *)
Fixpoint retrieve_loop (fuel : nat) (app_id lang country : string)
    (how_many : Z) (result : list Review) (continuation_token : option Token)
  : option (list Review) :=
  match fuel with
  | O => None
  | S fuel' =>
      if Z.of_nat (length result) <? how_many then
        let '(new_result, continuation_token') :=
          reviews app_id continuation_token lang country 150 in
        match new_result with
        | [] => Some result
        | _ :: _ =>
            retrieve_loop fuel' app_id lang country how_many
              (result ++ new_result) continuation_token'
        end
      else Some result
  end.

(** Every iteration that does not leave the loop adds at least one review,
    so [how_many] iterations and a last test always suffice. *)
Definition retrieve_playstore_reviews
    (app_id lang country : string) (how_many : Z) : option (list Review) :=
  retrieve_loop (S (Z.to_nat how_many)) app_id lang country how_many [] None.
End Fetcher.

(** A service that answers the successive calls with the successive pages of
    a given sequence; the token it hands out is the number of the next page. *)
Definition paged_service {Review : Type} (pages : nat → list Review)
    (app_id : string) (token : option nat) (lang country : string) (count : Z)
  : list Review * option nat :=
  let i := default 0%nat token in
  (pages i, Some (S i)).

(** ** Python values *)

Record datetime : Type := Datetime {
  dt_year : Z; dt_month : Z; dt_day : Z;
  dt_hour : Z; dt_minute : Z; dt_second : Z
}.

#[local] Set Warnings "-register-all".
Inductive pyval : Type :=
| VNone
| VBool (b : bool)
| VInt (n : Z)
| VStr (s : string)
| VDatetime (d : datetime)
| VDict (d : gmap string pyval).

(** A raw review: a dictionary from field name to value. *)
Abbreviation review := (gmap string pyval).

Definition LF : ascii := "010"%char.

Definition isinstance_str (v : pyval) : bool :=
  match v with VStr _ => true | _ => false end.

(** [a + b]: concatenation of strings, addition of integers (a [bool] counts
    as 0 or 1); any other pair of the modelled values is a [TypeError]. *)
Definition as_int (v : pyval) : option Z :=
  match v with
  | VInt n => Some n
  | VBool b => Some (Z.b2z b)
  | _ => None
  end.

Definition py_add (a b : pyval) : result pyval :=
  match a, b with
  | VStr x, VStr y => Ok (VStr (x +:+ y))
  | _, _ =>
      match as_int a, as_int b with
      | Some x, Some y => Ok (VInt (x + y))
      | _, _ => Raise TypeError
      end
  end.

(** [v[k]] for a string key. *)
Definition py_subscript (v : pyval) (k : string) : result pyval :=
  match v with
  | VDict d =>
      match d !! k with
      | Some x => Ok x
      | None => Raise KeyError
      end
  | _ => Raise TypeError
  end.

(** ** Dates *)

Definition digit_char (d : Z) : ascii := ascii_of_nat (48 + Z.to_nat d).

Definition zfill2 (n : Z) : string :=
  String (digit_char (n / 10 mod 10)) (String (digit_char (n mod 10)) "").

Definition zfill4 (n : Z) : string :=
  String (digit_char (n / 1000 mod 10))
    (String (digit_char (n / 100 mod 10)) (zfill2 n)).

(** [d.strftime("%d/%m/%Y")]: day and month zero-padded to two digits, the
    year with century to four.  A [datetime] object has its day in 1..31,
    its month in 1..12 and its year in 1..9999. *)
Definition strftime_dmY (d : datetime) : string :=
  zfill2 (dt_day d) +:+ "/" +:+ zfill2 (dt_month d) +:+ "/" +:+ zfill4 (dt_year d).

Definition is_digit (c : ascii) : bool :=
  let n := nat_of_ascii c in (48 <=? n)%nat && (n <=? 57)%nat.

Definition digit_val (c : ascii) : option Z :=
  if is_digit c then Some (Z.of_nat (nat_of_ascii c) - 48) else None.

Fixpoint read_digits (n : nat) (s : string) (acc : Z) : option (Z * string) :=
  match n with
  | O => Some (acc, s)
  | S n' =>
      match s with
      | String c t => d ← digit_val c; read_digits n' t (10 * acc + d)
      | EmptyString => None
      end
  end.

Definition expect (c : ascii) (s : string) : option string :=
  match s with
  | String c' t => if Ascii.eqb c c' then Some t else None
  | EmptyString => None
  end.

Definition is_leap (y : Z) : bool :=
  ((y mod 4 =? 0) && negb (y mod 100 =? 0)) || (y mod 400 =? 0).

Definition days_in_month (y m : Z) : Z :=
  if m =? 2 then (if is_leap y then 29 else 28)
  else if (m =? 4) || (m =? 6) || (m =? 9) || (m =? 11) then 30
  else 31.

Definition valid_datetime (d : datetime) : bool :=
  (1 <=? dt_year d) && (dt_year d <=? 9999) &&
  (1 <=? dt_month d) && (dt_month d <=? 12) &&
  (1 <=? dt_day d) && (dt_day d <=? days_in_month (dt_year d) (dt_month d)) &&
  (0 <=? dt_hour d) && (dt_hour d <=? 23) &&
  (0 <=? dt_minute d) && (dt_minute d <=? 59) &&
  (0 <=? dt_second d) && (dt_second d <=? 59).

(** A reference instance of [datetime.strptime(s, "%Y-%m-%dT%H:%M:%SZ")] on
    the zero-padded form [YYYY-MM-DDTHH:MM:SSZ] (Python also accepts fields
    written without the padding; those are not read here).  The normalizer
    below is stated over any parser; this one instantiates it. *)
Definition strptime_iso (s fmt : string) : result datetime :=
  let parsed : option datetime :=
    '(y, s) ← read_digits 4 s 0; s ← expect "-" s;
    '(m, s) ← read_digits 2 s 0; s ← expect "-" s;
    '(d, s) ← read_digits 2 s 0; s ← expect "T" s;
    '(hh, s) ← read_digits 2 s 0; s ← expect ":" s;
    '(mm, s) ← read_digits 2 s 0; s ← expect ":" s;
    '(ss, s) ← read_digits 2 s 0; s ← expect "Z" s;
    match s with
    | EmptyString => Some (Datetime y m d hh mm ss)
    | String _ _ => None
    end in
  match parsed with
  | Some d => if valid_datetime d then Ok d else Raise (ValueError "")
  | None => Raise (ValueError "")
  end.

(** ** Dictionaries that keep the insertion order *)

Section OrderedDict.
Context {V : Type}.

Fixpoint od_get (k : string) (d : list (string * V)) : option V :=
  match d with
  | [] => None
  | (k', v) :: rest => if String.eqb k' k then Some v else od_get k rest
  end.

(** [d[k] = v]: an existing key keeps its position, a new key goes last. *)
Fixpoint od_set (k : string) (v : V) (d : list (string * V)) : list (string * V) :=
  match d with
  | [] => [(k, v)]
  | (k', v') :: rest =>
      if String.eqb k' k then (k', v) :: rest else (k', v') :: od_set k v rest
  end.

(** [d[k]] as an expression. *)
Definition od_getitem (k : string) (d : list (string * V)) : result V :=
  match od_get k d with
  | Some v => Ok v
  | None => Raise KeyError
  end.
End OrderedDict.

(** [mapM] of stdpp's at [result], spelled out so that it computes by [simpl]. *)
Fixpoint traverse {A B : Type} (f : A → result B) (l : list A) : result (list B) :=
  match l with
  | [] => Ok []
  | x :: rest => y ← f x; ys ← traverse f rest; Ok (y :: ys)
  end.

(** ** scraper.py: the review normalizer *)

(** The table a formatter returns: rows of cells, the header row first.
    A cell is the Python object put into the array; the element type numpy
    then picks for the array as a whole is not part of the model. *)
Abbreviation table := (list (list pyval)).

(** [rev[rev_key].replace("\n", "") if isinstance(rev[rev_key], str)
     else rev[rev_key]], once [rev[rev_key]] is known. *)
Definition strip_newlines (v : pyval) : pyval :=
  if isinstance_str v then
    match v with
    | VStr s => VStr (PyStr.replace (String LF "") "" s)
    | _ => v
    end
  else v.

(** The body of the inner loop of [_format_generic] for one review: for each
    pair of [zip(revs_cols, dataset_cols)], append the cleaned field to the
    column of the dataset. *)
Fixpoint project_review (rev : review) (pairs : list (string * string))
    (dataset : list (string * list pyval)) : result (list (string * list pyval)) :=
  match pairs with
  | [] => Ok dataset
  | (rev_key, dataset_key) :: rest =>
      column ← od_getitem dataset_key dataset;
      v ← match rev !! rev_key with Some v => Ok v | None => Raise KeyError end;
      project_review rev rest
        (od_set dataset_key (column ++ [strip_newlines v]) dataset)
  end.

Fixpoint project_reviews (revs : list review) (pairs : list (string * string))
    (dataset : list (string * list pyval)) : result (list (string * list pyval)) :=
  match revs with
  | [] => Ok dataset
  | rev :: rest =>
      dataset' ← project_review rev pairs dataset;
      project_reviews rest pairs dataset'
  end.

(** ["" if value is None or isinstance(value, str)
     else value.strftime("%d/%m/%Y")]; only a [datetime] has [strftime]
    among the modelled values. *)
Definition datetime_to_string (value : pyval) : result pyval :=
  match value with
  | VNone => Ok (VStr "")
  | VStr _ => Ok (VStr "")
  | VDatetime d => Ok (VStr (strftime_dmY d))
  | VBool _ | VInt _ | VDict _ => Raise AttributeError
  end.

(** [dataset[key] = [... for value in dataset[key]]]. *)
Definition format_datetime_column (key : string)
    (dataset : list (string * list pyval)) : result (list (string * list pyval)) :=
  column ← od_getitem key dataset;
  column' ← traverse datetime_to_string column;
  Ok (od_set key column' dataset).

(** [np.array(columns).T]: the rows of a rectangular list of columns.
    Columns of different lengths do not make a two-dimensional array, and
    no column at all makes an array that cannot be joined to the header. *)
Definition np_transpose (columns : list (list pyval)) : result table :=
  match columns with
  | [] => Raise (ValueError "")
  | c :: _ =>
      let n := length c in
      if forallb (λ c', (length c' =? n)%nat) columns
      then Ok ((λ i, (λ c', default VNone (c' !! i)) <$> columns) <$> seq 0 n)
      else Raise (ValueError "")
  end.

Definition _format_generic (revs : list review)
    (dataset_cols revs_cols : list string) : result table :=
  let dataset := foldl (λ d key, od_set key [] d) [] dataset_cols in
  dataset ← project_reviews revs (zip revs_cols dataset_cols) dataset;
  dataset ← format_datetime_column "Datetime" dataset;
  dataset ← format_datetime_column "Reply Datetime" dataset;
  body ← np_transpose (dataset.*2);
  Ok ((VStr <$> dataset.*1) :: body).

Definition appstore_revs_cols : list string :=
  ["date"; "userName"; "review"; "rating"; "replyContent"; "repliedAt"].
Definition appstore_dataset_cols : list string :=
  ["Datetime"; "Username"; "Review"; "Rating"; "Reply"; "Reply Datetime"].
Definition playstore_revs_cols : list string :=
  ["at"; "userName"; "content"; "score"; "replyContent"; "repliedAt"; "thumbsUpCount"].
Definition playstore_dataset_cols : list string :=
  ["Datetime"; "Username"; "Review"; "Rating"; "Reply"; "Reply Datetime"; "Thumbs Up"].

(** Statements that read and write one review in place: the review after
    the statement, and its value or the exception it raised. *)
Definition mut (A : Type) : Type := review → review * result A.

Definition mut_bind {A B : Type} (m : mut A) (k : A → mut B) : mut B :=
  λ rev, match m rev with
         | (rev', Ok a) => k a rev'
         | (rev', Raise e) => (rev', Raise e)
         end.

Definition mut_lift {A : Type} (r : result A) : mut A := λ rev, (rev, r).

Definition getitem (k : string) : mut pyval :=
  λ rev, (rev, match rev !! k with Some v => Ok v | None => Raise KeyError end).

Definition setitem (k : string) (v : pyval) : mut () :=
  λ rev, (<[k:=v]> rev, Ok ()).

Definition has_key (k : string) : mut bool :=
  λ rev, (rev, Ok (bool_decide (is_Some (rev !! k)))).

Notation "'let*' x ':=' m 'in' k" := (mut_bind m (λ x, k))
  (at level 10, x pattern, m at level 100, k at level 200).

Section Normalizer.
(** [datetime.strptime]: the string, the format, and the date read or the
    [ValueError] raised. *)
Variable strptime : string → string → result datetime.

Definition py_strptime (v : pyval) (fmt : string) : result datetime :=
  match v with
  | VStr s => strptime s fmt
  | _ => Raise TypeError
  end.

(** The body of the preprocessing loop of [formate_appstore_reviews]. *)
Definition preprocess_appstore_review : mut () :=
  let* title := getitem "title" in
  let* text := getitem "review" in
  let* joined := mut_lift (py_add title text) in
  let* _ := setitem "review" joined in
  let* responded := has_key "developerResponse" in
  if (responded : bool) then
    let* response := getitem "developerResponse" in
    let* body := mut_lift (py_subscript response "body") in
    let* _ := setitem "replyContent" body in
    let* response := getitem "developerResponse" in
    let* modified := mut_lift (py_subscript response "modified") in
    let* replied := mut_lift (py_strptime modified "%Y-%m-%dT%H:%M:%SZ") in
    setitem "repliedAt" (VDatetime replied)
  else
    let* _ := setitem "replyContent" (VStr "") in
    setitem "repliedAt" (VStr "").

(** [for rev in revs: ...]: the reviews after the loop (those before a
    failing one rewritten, the failing one as far as it got, the rest
    untouched) and whether it raised. *)
Fixpoint preprocess_appstore_reviews (revs : list review)
  : list review * result () :=
  match revs with
  | [] => ([], Ok ())
  | rev :: rest =>
      match preprocess_appstore_review rev with
      | (rev', Ok _) =>
          let '(rest', r) := preprocess_appstore_reviews rest in
          (rev' :: rest', r)
      | (rev', Raise e) => (rev' :: rest, Raise e)
      end
  end.

(** [formate_appstore_reviews(revs)]: the list [revs] as the call leaves
    it, and the table returned or the exception raised. *)
Definition formate_appstore_reviews (revs : list review)
  : list review * result table :=
  let '(revs', r) := preprocess_appstore_reviews revs in
  (revs', _ ← r; _format_generic revs' appstore_dataset_cols appstore_revs_cols).
End Normalizer.

(** [format_playstore_reviews(revs)], in the same shape: the list is left as
    it was. *)
Definition format_playstore_reviews (revs : list review)
  : list review * result table :=
  (revs, _format_generic revs playstore_dataset_cols playstore_revs_cols).

(** Two successive calls of a formatter on the same list object: the second
    call sees the list as the first one left it. *)
Definition call_twice (format : list review → list review * result table)
    (revs : list review) : result table * result table :=
  let '(revs1, t1) := format revs in
  let '(_, t2) := format revs1 in
  (t1, t2).

(** ** The specification's reading of the App Store extraction

    "Split the URL on [/]; the last path segment, with a literal [id] prefix
    stripped, is the application id; the second-to-last path segment is the
    application name."  Kept beside the code's function to compare the two. *)
Definition appstore_ids_as_specified (url : string) : result (string * string) :=
  last_seg ← py_index (PyStr.split "/" url) (-1);
  app_name ← py_index (PyStr.split "/" url) (-2);
  Ok (PyStr.removeprefix "id" last_seg, app_name).

(** [p] occurs in [s]. *)
Definition substring_of (p s : string) : Prop := ∃ a b, s = a +:+ p +:+ b.

(** ** Sequences of pages, to state what the pagination loop returns *)

(** The pages number [i] to [i + k - 1], one after the other. *)
Definition pages_from {Review : Type} (pages : nat → list Review) (i k : nat)
  : list Review :=
  concat (pages <$> seq i k).

(** Pages of the given sizes followed by empty pages. *)
Definition pages_of_sizes (sizes : list nat) (i : nat) : list () :=
  replicate (default 0%nat (sizes !! i)) ().

(** ** The projection, row by row

    What the inner loop of [_format_generic] reads from one review, and what
    it does to the columns; used to state the properties of the table. *)

(** The cleaned fields of one review, in the order of [revs_cols]. *)
Definition review_cells (revs_cols : list string) (rev : review)
  : result (list pyval) :=
  traverse
    (λ rev_key,
       match rev !! rev_key with
       | Some v => Ok (strip_newlines v)
       | None => Raise KeyError
       end)
    revs_cols.

(** One more cell at the end of every column. *)
Definition append_row (columns : list (list pyval)) (row : list pyval)
  : list (list pyval) :=
  zip_with (λ column v, column ++ [v]) columns row.

(** What a cell of the table holds, given the cleaned field: in the two date
    columns the date as text, elsewhere the field itself. *)
Definition cell_of (is_date : bool) (v cell : pyval) : Prop :=
  if is_date then datetime_to_string v = Ok cell else cell = v.

(** A review as a preprocessing that did not raise leaves it: the joined
    text, the reply and the reply date written over the raw review. *)
Definition preprocessed (rev : review) (joined reply replied : pyval) : review :=
  <["repliedAt" := replied]> (<["replyContent" := reply]> (<["review" := joined]> rev)).

(** ** Shapes used to state the properties of the table *)


(** The string holds no newline character. *)
Definition no_newline (s : string) : Prop := LF ∉ list_ascii_of_string s.

(** A raw App Store review without a developer response, as in the
    specification's example, and one with a response. *)
Definition example_appstore_review (date user : pyval) : review :=
  {[ "title" := VStr "Great"; "review" := VStr " app"; "rating" := VInt 5;
     "userName" := user; "date" := date; "isEdited" := VBool false ]}.

Definition example_appstore_reply : review :=
  <[ "developerResponse" :=
       VDict {[ "id" := VInt 7; "body" := VStr "Thank you";
                "modified" := VStr "2024-02-29T08:30:00Z" ]} ]>
    (example_appstore_review (VDatetime (Datetime 2023 3 5 10 20 30)) (VStr "bob")).

(** A raw Play Store review whose text has two line breaks and which has no
    reply. *)
Definition example_playstore_review : review :=
  {[ "reviewId" := VStr "r1"; "userName" := VStr "ann";
     "content" := VStr (String "a" (String LF (String "b" (String LF "c"))));
     "score" := VInt 4; "thumbsUpCount" := VInt 12;
     "at" := VDatetime (Datetime 2023 3 5 0 0 0);
     "replyContent" := VNone; "repliedAt" := VNone ]}.

(** ** scraper.py: App Store retrieval *)

(** [xs[:stop]]: a negative [stop] counts from the end, and the bound is
    clipped to the list. *)
Definition py_slice_to {A : Type} (xs : list A) (stop : Z) : list A :=
  let n := Z.of_nat (length xs) in
  let stop' := if stop <? 0 then Z.max (stop + n) 0 else Z.min stop n in
  take (Z.to_nat stop') xs.

Section AppStoreFetcher.
(** The external [AppStore] object of [app_store_scraper]: built from the
    country, the application name and id, asked for [how_many] reviews with
    [review], it then holds the list [reviews], unless a call raised. *)
Context {Review : Type}.
Variable app_store_reviews : string → string → string → Z → result (list Review).

Definition retrieve_appstore_reviews
    (app_name app_id country : string) (how_many : Z) : result (list Review) :=
  fetched ← app_store_reviews country app_name app_id how_many;
  Ok (py_slice_to fetched how_many).
End AppStoreFetcher.

(** ** One review formatted by itself

    The row that [_format_generic] makes of one review, written as a
    function of that review alone, to compare the column-wise code with. *)

(** The columns whose cells are dates written as text. *)
Definition is_date_column (dataset_key : string) : bool :=
  bool_decide (dataset_key = "Datetime" ∨ dataset_key = "Reply Datetime").

(** The cell made of a cleaned field. *)
Definition finish_cell (is_date : bool) (v : pyval) : result pyval :=
  if is_date then datetime_to_string v else Ok v.

Definition format_row (dataset_cols revs_cols : list string) (rev : review)
  : result (list pyval) :=
  traverse
    (λ '(rev_key, dataset_key),
       v ← match rev !! rev_key with Some v => Ok v | None => Raise KeyError end;
       finish_cell (is_date_column dataset_key) (strip_newlines v))
    (zip revs_cols dataset_cols).

(** Cell [j] of every row. *)
Definition column (j : nat) (rows : list (list pyval)) : list pyval :=
  (λ row, default VNone (row !! j)) <$> rows.

(** What the date step accepts: [None], a string or a date. *)
Definition date_like (v : pyval) : Prop :=
  v = VNone ∨ (∃ s, v = VStr s) ∨ (∃ d, v = VDatetime d).

(** Some review lacks a field that is read. *)
Definition missing_field (revs : list review) (rks : list string) : Prop :=
  ∃ rev rk, rev ∈ revs ∧ rk ∈ rks ∧ rev !! rk = None.

(** Some review has, in a field that feeds a date column (the fields number
    [i0] and [i5]), a value that is neither [None] nor a string nor a date. *)
Definition bad_date_field (revs : list review) (rks : list string)
    (i0 i5 : nat) : Prop :=
  ∃ rev j rk v,
    rev ∈ revs ∧ (j = i0 ∨ j = i5) ∧ rks !! j = Some rk
    ∧ rev !! rk = Some v ∧ ¬ date_like v.

(** The Play Store example with a number where its date should be, and
    without its score. *)
Definition example_playstore_bad_date : review :=
  <["at" := VInt 3]> example_playstore_review.

Definition example_playstore_no_score : review :=
  delete "score" example_playstore_review.

(** How a preprocessing that raised can leave a review: as it was, with the
    review text written, or with the review text and the reply written. *)
Definition half_preprocessed (rev rev' : review) : Prop :=
  rev' = rev
  ∨ (∃ joined, rev' = <["review" := joined]> rev)
  ∨ (∃ joined body,
       rev' = <["replyContent" := body]> (<["review" := joined]> rev)).

(** ** app.py: the two branches of the handler *)

Section Branches.
(** The functions of [scraper.py] that fetch, called as the handler calls
    them (with the application name and id and their default arguments),
    the date parser, and [dcc.send_data_frame], which takes a writer and a
    file name. *)
Context {Payload Writer : Type}.
Variable fetch_appstore : string → string → result (list review).
Variable fetch_playstore : string → result (list review).
Variable strptime : string → string → result datetime.
Variable send_data_frame : Writer → string → result Payload.

(** [dataset.to_csv] where [dataset] is what a formatter returned: the
    result of [np.concatenate], a numpy array, which has no attribute
    [to_csv]. *)
Definition ndarray_to_csv (dataset : table) : result Writer :=
  Raise AttributeError.

Definition appstore_branch (app_id app_name : string) : result Payload :=
  appstore_reviews ← fetch_appstore app_name app_id;
  appstore_dataset ← (formate_appstore_reviews strptime appstore_reviews).2;
  writer ← ndarray_to_csv appstore_dataset;
  send_data_frame writer ("appstore_" +:+ app_name +:+ "_reviews.csv").

Definition playstore_branch (app_id : string) : result Payload :=
  playstore_reviews ← fetch_playstore app_id;
  playstore_dataset ← (format_playstore_reviews playstore_reviews).2;
  writer ← ndarray_to_csv playstore_dataset;
  send_data_frame writer
    ("playstore_" +:+ PyStr.replace "." "_" app_id +:+ "_reviews.csv").

(** The handler with its branches as [app.py] writes them. *)
Definition start_review_scraping_app
    (n_clicks n_submits : option Z) (url : string) : result Payload :=
  start_review_scraping appstore_branch playstore_branch n_clicks n_submits url.
End Branches.

(** ** scraper.py: the table as CSV text *)

Definition DQ : ascii := "034"%char.
Definition CR : ascii := "013"%char.

(** [str(n)] for an integer: the decimal digits, most significant first,
    after a minus sign when negative. [fuel] bounds the number of digits
    after the first, which the binary logarithm does. *)
Fixpoint decimal_digits (fuel : nat) (n : Z) (acc : string) : string :=
  let acc' := String (digit_char (n mod 10)) acc in
  match fuel with
  | O => acc'
  | S fuel' => if n <? 10 then acc' else decimal_digits fuel' (n / 10) acc'
  end.

Definition str_of_int (n : Z) : string :=
  if n <? 0 then String "-" (decimal_digits (Z.to_nat (Z.log2 (- n))) (- n) "")
  else decimal_digits (Z.to_nat (Z.log2 n)) n "".

(** [str(d)] for a date without microseconds. *)
Definition str_of_datetime (d : datetime) : string :=
  zfill4 (dt_year d) +:+ "-" +:+ zfill2 (dt_month d) +:+ "-" +:+ zfill2 (dt_day d)
  +:+ " " +:+ zfill2 (dt_hour d) +:+ ":" +:+ zfill2 (dt_minute d)
  +:+ ":" +:+ zfill2 (dt_second d).

Fixpoint count_char (c : ascii) (s : string) : nat :=
  match s with
  | EmptyString => 0%nat
  | String a t => ((if Ascii.eqb a c then 1 else 0) + count_char c t)%nat
  end.

(** A field is quoted under [QUOTE_MINIMAL] when it holds the delimiter, the
    quote character or a character of the line terminator. *)
Fixpoint needs_quotes (s : string) : bool :=
  match s with
  | EmptyString => false
  | String a t =>
      Ascii.eqb a "," || Ascii.eqb a DQ || Ascii.eqb a CR || Ascii.eqb a LF
      || needs_quotes t
  end.

(** Every quote character written twice. *)
Fixpoint double_quotes (s : string) : string :=
  match s with
  | EmptyString => EmptyString
  | String a t =>
      if Ascii.eqb a DQ then String DQ (String DQ (double_quotes t))
      else String a (double_quotes t)
  end.

Definition csv_field (s : string) : string :=
  if needs_quotes s then String DQ (double_quotes s +:+ String DQ "") else s.

(** [csv_writer.writerow(row)] for the texts of the fields: the fields
    joined by the delimiter and ended by the writer's line terminator,
    carriage return and line feed; a row that is one empty field is written
    as a pair of quotes. *)
Definition csv_row (fields : list string) : string :=
  match fields with
  | [EmptyString] => String DQ (String DQ "")
  | _ => PyStr.join "," (csv_field <$> fields)
  end +:+ String CR (String LF "").

Section Csv.
(** [str(d)] for a dictionary, which the model leaves open. *)
Variable repr_dict : gmap string pyval → string.

(** The text the writer makes of a cell: nothing for [None], a string as it
    is, and [str] of anything else. *)
Definition csv_text (cell : pyval) : string :=
  match cell with
  | VNone => ""
  | VStr s => s
  | VInt n => str_of_int n
  | VBool b => if b then "True" else "False"
  | VDatetime d => str_of_datetime d
  | VDict d => repr_dict d
  end.

Definition numpy_to_str (dataset : table) : string :=
  foldr (λ row text, csv_row (csv_text <$> row) +:+ text) "" dataset.
End Csv.

(** A cell that is a string, an integer or [None]. *)
Definition plain_cell (cell : pyval) : Prop :=
  cell = VNone ∨ (∃ s, cell = VStr s) ∨ (∃ n, cell = VInt n).

(** * Properties *)

(** ** Strings *)

#[local] Arguments String.append !_ _ / : simpl nomatch.

Section StringFacts.
Implicit Types (s t p : string) (c sep : ascii).

Lemma app_empty_r s : s +:+ "" = s.
Proof. induction s as [|c s IH]; simpl; [done | by rewrite IH]. Qed.

Lemma app_assoc_str s t p : (s +:+ t) +:+ p = s +:+ (t +:+ p).
Proof. induction s as [|c s IH]; simpl; [done | by rewrite IH]. Qed.

Lemma prefix_iff p s : String.prefix p s = true ↔ ∃ r, s = p +:+ r.
Proof.
  revert p. induction s as [|c s IH]; intros [|a p]; simpl.
  - split; [by exists "" | done].
  - split; [done | by intros [r ?]].
  - split; [by eexists | done].
  - destruct (ascii_dec a c) as [->|Hne].
    + rewrite IH. split; intros [r Hr]; exists r; congruence.
    + split; [done | intros [r Hr]; congruence].
Qed.

Lemma prefix_app p r : String.prefix p (p +:+ r) = true.
Proof. apply prefix_iff. by exists r. Qed.

(** [contains] decides the substring relation. *)
Lemma contains_unfold p s :
  PyStr.contains p s =
    String.prefix p s ||
    match s with EmptyString => false | String _ t => PyStr.contains p t end.
Proof.
  destruct s; cbn [PyStr.contains]; by destruct (String.prefix p _).
Qed.

Lemma contains_iff p s :
  PyStr.contains p s = true ↔ ∃ a b, s = a +:+ p +:+ b.
Proof.
  induction s as [|c s IH].
  - rewrite contains_unfold, orb_true_iff, (prefix_iff p ""). split.
    + intros [[r Hr]|?]; [|done]. by exists "", r.
    + intros ([|a0 a] & b & Hab); [|done]. left. by exists b.
  - rewrite contains_unfold, orb_true_iff, (prefix_iff p (String c s)), IH. split.
    + intros [[r Hr]|(a & b & ->)]; [by exists "", r | by exists (String c a), b].
    + intros ([|a0 a] & b & Hab); simpl in Hab.
      * left. by exists b.
      * injection Hab as -> ->. right. by exists a, b.
Qed.

Lemma contains_false_tail p c s :
  PyStr.contains p (String c s) = false → PyStr.contains p s = false.
Proof. rewrite (contains_unfold p (String c s)). by intros [_ ?]%orb_false_elim. Qed.

Lemma contains_false_prefix p s :
  PyStr.contains p s = false → String.prefix p s = false.
Proof. rewrite contains_unfold. by intros [? _]%orb_false_elim. Qed.

(** *** [split] *)

Lemma split_nonempty sep s : PyStr.split sep s ≠ [].
Proof.
  induction s as [|c s IH]; simpl; [done|].
  destruct (Ascii.eqb c sep); [done|]. by destruct (PyStr.split sep s).
Qed.

Lemma contains_char_cons sep c s :
  PyStr.contains (String sep "") (String c s)
  = Ascii.eqb c sep || PyStr.contains (String sep "") s.
Proof.
  rewrite contains_unfold. f_equal. simpl.
  destruct (ascii_dec sep c), (Ascii.eqb_spec c sep); simpl; try congruence.
  by destruct s.
Qed.

(** A string without the separator is a single segment. *)
Lemma split_no_sep sep s :
  PyStr.contains (String sep "") s = false → PyStr.split sep s = [s].
Proof.
  induction s as [|c s IH]; [done|].
  rewrite contains_char_cons. intros [Hc Hs]%orb_false_elim.
  simpl. rewrite Hc, (IH Hs). done.
Qed.

Lemma split_app sep s t :
  PyStr.split sep (s +:+ String sep t) = PyStr.split sep s ++ PyStr.split sep t.
Proof.
  induction s as [|c s IH]; simpl.
  - by rewrite Ascii.eqb_refl.
  - destruct (Ascii.eqb c sep); [by rewrite IH|].
    rewrite IH. pose proof (split_nonempty sep s).
    by destruct (PyStr.split sep s).
Qed.

(** The segments contain no separator, and joined by it give the string back. *)
Lemma split_segments sep s :
  Forall (λ seg, PyStr.contains (String sep "") seg = false) (PyStr.split sep s).
Proof.
  induction s as [|c s IH]; simpl.
  - by repeat constructor.
  - destruct (Ascii.eqb c sep) eqn:Hc; [by constructor|].
    pose proof (split_nonempty sep s).
    destruct (PyStr.split sep s) as [|seg rest]; [done|]. inversion IH; subst.
    constructor; [|done]. rewrite contains_char_cons, Hc. done.
Qed.

Lemma join_split sep s : PyStr.join sep (PyStr.split sep s) = s.
Proof.
  induction s as [|c s IH]; [done|]. simpl.
  pose proof (split_nonempty sep s) as Hne.
  destruct (Ascii.eqb_spec c sep) as [->|Hc].
  - destruct (PyStr.split sep s) as [|seg rest]; [done|]. simpl in *. by rewrite IH.
  - destruct (PyStr.split sep s) as [|seg [|seg' rest]]; [done|..];
      simpl in *; by rewrite <- IH.
Qed.

Lemma join_snoc2 sep (segs : list string) a b :
  PyStr.join sep (segs ++ [a; b]) =
    match segs with
    | [] => a +:+ String sep b
    | _ :: _ => PyStr.join sep segs +:+ String sep (a +:+ String sep b)
    end.
Proof.
  induction segs as [|x segs IH]; [done|].
  destruct segs as [|y segs]; [done|].
  change (PyStr.join sep ((x :: y :: segs) ++ [a; b]))
    with (x +:+ String sep (PyStr.join sep ((y :: segs) ++ [a; b]))).
  rewrite IH.
  change (PyStr.join sep (x :: y :: segs))
    with (x +:+ String sep (PyStr.join sep (y :: segs))).
  rewrite app_assoc_str. done.
Qed.

(** A string with a separator has at least two segments. *)
Lemma split_two sep s :
  PyStr.contains (String sep "") s = true →
  ∃ segs a b, PyStr.split sep s = segs ++ [a; b].
Proof.
  induction s as [|c s IH]; [done|].
  rewrite contains_char_cons. simpl.
  destruct (PyStr.contains (String sep "") s) eqn:Hs.
  - intros _. destruct (IH eq_refl) as (segs & a & b & ->).
    destruct (Ascii.eqb c sep).
    + by exists ("" :: segs), a, b.
    + destruct segs as [|x segs]; simpl.
      * by exists [], (String c a), b.
      * by exists (String c x :: segs), a, b.
  - rewrite orb_false_r. intros ->. rewrite (split_no_sep _ _ Hs).
    by exists [], "", s.
Qed.
End StringFacts.

Section ReplaceFacts.
Implicit Types (s t old new : string) (c : ascii).

Lemma replace_go_no_match old new s :
  PyStr.contains old s = false → PyStr.replace_go old new s 0 = s.
Proof.
  induction s as [|c s IH]; [done|]. intros Hs. cbn [PyStr.replace_go].
  rewrite (contains_false_prefix _ _ Hs).
  by rewrite (IH (contains_false_tail _ _ _ Hs)).
Qed.

Lemma replace_go_skip old new t s :
  PyStr.replace_go old new (t +:+ s) (String.length t)
  = PyStr.replace_go old new s 0.
Proof. induction t as [|c t IH]; [done | apply IH]. Qed.

(** An occurrence at the front is replaced and the scan goes on behind it. *)
Lemma replace_prefix old new s :
  old ≠ "" →
  PyStr.replace old new (old +:+ s) = new +:+ PyStr.replace old new s.
Proof.
  destruct old as [|c old]; [done|]. intros _.
  unfold PyStr.replace.
  change (String c old +:+ s) with (String c (old +:+ s)).
  cbn [PyStr.replace_go].
  change (String c (old +:+ s)) with (String c old +:+ s).
  rewrite prefix_app. simpl String.length.
  replace (S (String.length old) - 1)%nat with (String.length old) by lia.
  by rewrite replace_go_skip.
Qed.

Lemma replace_no_match old new s :
  PyStr.contains old s = false → PyStr.replace old new s = s.
Proof.
  destruct old as [|c old].
  - rewrite contains_unfold. by destruct s.
  - apply replace_go_no_match.
Qed.

(** Removing a prefix that occurs nowhere else is what [replace] does. *)
Lemma replace_is_removeprefix old s :
  old ≠ "" → PyStr.contains old s = false →
  PyStr.replace old "" (old +:+ s) = PyStr.removeprefix old (old +:+ s).
Proof.
  intros Hold Hs. rewrite replace_prefix, (replace_no_match _ _ _ Hs) by done.
  unfold PyStr.removeprefix. rewrite prefix_app. simpl.
  clear. induction old as [|c old IH]; simpl.
  - rewrite Nat.sub_0_r. induction s as [|a s IHs]; [done|].
    simpl. by rewrite <- IHs at 1.
  - apply IH.
Qed.

(** Replacing a one-character string by nothing deletes that character and
    keeps every other character in place. *)
Lemma replace_char_filter c s :
  list_ascii_of_string (PyStr.replace (String c "") "" s)
  = filter (λ x, x ≠ c) (list_ascii_of_string s).
Proof.
  unfold PyStr.replace.
  induction s as [|a s IH]; [done|].
  cbn [PyStr.replace_go list_ascii_of_string].
  rewrite filter_cons. simpl String.prefix. simpl String.length.
  destruct (ascii_dec c a) as [->|Hne]; simpl.
  - rewrite decide_False by (by intros []). destruct s; apply IH.
  - rewrite decide_True by congruence. simpl. by rewrite IH.
Qed.
End ReplaceFacts.

Section IndexFacts.
Context {A : Type}.
Implicit Types (xs : list A).

Lemma py_index_from_end xs (k : nat) x :
  (0 < k ≤ length xs)%nat →
  xs !! (length xs - k)%nat = Some x →
  py_index xs (- Z.of_nat k) = Ok x.
Proof.
  intros Hk Hx. unfold py_index.
  destruct (Z.ltb_spec (- Z.of_nat k) 0); [|lia].
  destruct (Z.ltb_spec (- Z.of_nat k + Z.of_nat (length xs)) 0); [lia|].
  destruct (Z.leb_spec (Z.of_nat (length xs))
              (- Z.of_nat k + Z.of_nat (length xs))); [lia|].
  simpl.
  replace (Z.to_nat (- Z.of_nat k + Z.of_nat (length xs)))
    with (length xs - k)%nat by lia.
  by rewrite Hx.
Qed.

Lemma py_index_last xs a b : py_index (xs ++ [a; b]) (-1) = Ok b.
Proof.
  apply (py_index_from_end _ 1); rewrite length_app; simpl; [lia|].
  rewrite lookup_app_r by lia.
  by replace (length xs + 2 - 1 - length xs)%nat with 1%nat by lia.
Qed.

Lemma py_index_last2 xs a b : py_index (xs ++ [a; b]) (-2) = Ok a.
Proof.
  apply (py_index_from_end _ 2); rewrite length_app; simpl; [lia|].
  rewrite lookup_app_r by lia.
  by replace (length xs + 2 - 2 - length xs)%nat with 0%nat by lia.
Qed.
End IndexFacts.

(** ** The App Store identifiers *)

Lemma appstore_ids_of_segments url segs name last_seg :
  PyStr.split "/" url = segs ++ [name; last_seg] →
  get_app_id_name_from_appstore_url url
  = Ok (PyStr.replace "id" "" last_seg, name).
Proof.
  intros Hs. unfold get_app_id_name_from_appstore_url.
  by rewrite Hs, py_index_last, py_index_last2.
Qed.

Lemma appstore_ids_no_slash url :
  PyStr.contains "/" url = false →
  get_app_id_name_from_appstore_url url = Raise IndexError.
Proof.
  intros Hs. unfold get_app_id_name_from_appstore_url.
  by rewrite (split_no_sep _ _ Hs).
Qed.

Lemma removeprefix_app p s : PyStr.removeprefix p (p +:+ s) = s.
Proof.
  unfold PyStr.removeprefix. rewrite prefix_app.
  induction p as [|c p IH]; simpl.
  - rewrite Nat.sub_0_r. induction s as [|a s IHs]; [done|].
    simpl. by rewrite IHs.
  - apply IH.
Qed.

Lemma replace_id_removeprefix seg :
  PyStr.contains "id" (PyStr.removeprefix "id" seg) = false →
  PyStr.replace "id" "" seg = PyStr.removeprefix "id" seg.
Proof.
  destruct (String.prefix "id" seg) eqn:Hp.
  - apply prefix_iff in Hp as [rest ->]. rewrite removeprefix_app. intros Hrest.
    rewrite replace_prefix by done. by rewrite replace_no_match.
  - unfold PyStr.removeprefix. rewrite Hp. apply replace_no_match.
Qed.

(** C3 (amended): for every URL with a "/", the URL ends in two "/"-free
    segments [name] and [last_seg] (with or without something before them),
    and the function returns [last_seg] with every occurrence of "id" removed
    as the id and [name] as the name; removing every "id" is stripping the
    "id" prefix whenever the stripped segment holds no further "id"; and the
    URL of the docstring gives ("1377291789", "enel-x-way"). *)
Theorem C3_appstore_ids_from_last_two_segments :
  (∀ url, PyStr.contains "/" url = true →
     ∃ name last_seg,
       (url = name +:+ "/" +:+ last_seg
        ∨ ∃ pre, url = pre +:+ "/" +:+ name +:+ "/" +:+ last_seg) ∧
       PyStr.contains "/" name = false ∧
       PyStr.contains "/" last_seg = false ∧
       get_app_id_name_from_appstore_url url
       = Ok (PyStr.replace "id" "" last_seg, name))
  ∧ (∀ seg, PyStr.contains "id" (PyStr.removeprefix "id" seg) = false →
       PyStr.replace "id" "" seg = PyStr.removeprefix "id" seg)
  ∧ get_app_id_name_from_appstore_url
      "https://apps.apple.com/it/app/enel-x-way/id1377291789"
    = Ok ("1377291789", "enel-x-way").
Proof.
  split; [|split; [apply replace_id_removeprefix | reflexivity]].
  intros url Hurl.
  destruct (split_two "/" url Hurl) as (segs & name & last_seg & Hsplit).
  pose proof (split_segments "/" url) as Hsegs.
  rewrite Hsplit, Forall_app in Hsegs. destruct Hsegs as [_ Hsegs].
  apply Forall_cons in Hsegs as [Hname Hlast%Forall_cons_1].
  destruct Hlast as [Hlast _].
  exists name, last_seg. split; [|by eauto using appstore_ids_of_segments].
  pose proof (join_split "/" url) as Hjoin.
  rewrite Hsplit, join_snoc2 in Hjoin.
  destruct segs as [|x segs]; [by left|].
  right. exists (PyStr.join "/" (x :: segs)). by rewrite <- Hjoin.
Qed.

(** C3, as stated, fails: on a store URL with a query string the code
    removes the "id" of the query too, where stripping the prefix keeps it;
    and a string without "/" has no second-to-last segment. *)
Lemma C3_counterexample_replace_is_not_prefix_strip :
  get_app_id_name_from_appstore_url
    "https://apps.apple.com/id/app/gojek/id944875099?l=id"
  = Ok ("944875099?l=", "gojek")
  ∧ appstore_ids_as_specified
      "https://apps.apple.com/id/app/gojek/id944875099?l=id"
    = Ok ("944875099?l=id", "gojek")
  ∧ get_app_id_name_from_appstore_url "id1377291789" = Raise IndexError.
Proof. repeat split. Qed.

(** C9 (amended): the extraction returns a pair of strings exactly when the
    URL contains a "/", and raises [IndexError] otherwise. *)
Theorem C9_appstore_extraction_returns_iff_slash (url : string) :
  (PyStr.contains "/" url = true →
     ∃ app_id app_name,
       get_app_id_name_from_appstore_url url = Ok (app_id, app_name))
  ∧ (PyStr.contains "/" url = false →
       get_app_id_name_from_appstore_url url = Raise IndexError).
Proof.
  split; [|apply appstore_ids_no_slash].
  intros (segs & name & last_seg & Hs)%split_two.
  eauto using appstore_ids_of_segments.
Qed.

(** C9, as stated, fails: a URL can contain the App Store marker and no "/",
    and then the extraction raises. *)
Lemma C9_counterexample_marker_without_slash :
  PyStr.contains "apps.apple.com" "apps.apple.com" = true
  ∧ get_app_id_name_from_appstore_url "apps.apple.com" = Raise IndexError.
Proof. split; reflexivity. Qed.

(** ** The request handler *)

Lemma substring_of_contains p s :
  substring_of p s ↔ PyStr.contains p s = true.
Proof. symmetry. apply contains_iff. Qed.

Lemma not_substring_of_contains p s :
  ¬ substring_of p s ↔ PyStr.contains p s = false.
Proof. rewrite substring_of_contains. apply not_true_iff_false. Qed.

Lemma py_index_raises {A : Type} (xs : list A) i e :
  py_index xs i = Raise e → e = IndexError.
Proof.
  unfold py_index. destruct (_ || _); [congruence|].
  destruct (xs !! _); congruence.
Qed.

Lemma appstore_ids_raises url e :
  get_app_id_name_from_appstore_url url = Raise e → e = IndexError.
Proof.
  unfold get_app_id_name_from_appstore_url.
  destruct (py_index _ (-1)) eqn:H1; simpl; [|by apply py_index_raises in H1; congruence].
  destruct (py_index _ (-2)) eqn:H2; simpl; [done|].
  apply py_index_raises in H2. congruence.
Qed.

Lemma playstore_id_raises url e :
  get_app_id_from_playstore_url url = Raise e → e = IndexError.
Proof.
  unfold get_app_id_from_playstore_url.
  destruct (py_index _ (-1)) as [a|] eqn:H1; simpl;
    [|by apply py_index_raises in H1; congruence].
  destruct (py_index (PyStr.split "?" a) _) as [b|] eqn:H2; simpl;
    [|by apply py_index_raises in H2; congruence].
  destruct (py_index (PyStr.split "&" b) _) as [c|] eqn:H3; simpl; [done|].
  apply py_index_raises in H3. congruence.
Qed.

(** C1: a trigger with both counters at zero is ignored; otherwise the
    handler takes the App Store branch when the URL contains
    "apps.apple.com", else the Play Store branch when it contains
    "play.google.com", else raises the [ValueError] with the message of the
    source; and when the two branches raise no [ValueError] themselves, a
    [ValueError] comes out only in that last case. *)
Theorem C1_three_way_dispatch {Payload : Type}
    (appstore_export : string → string → result Payload)
    (playstore_export : string → result Payload)
    (n_clicks n_submits : option Z) (url : string) :
  let handler :=
    start_review_scraping appstore_export playstore_export n_clicks n_submits url in
  let noop := n_clicks = Some 0 ∧ n_submits = Some 0 in
  let msg := "Invalid url. Make sure to use a Playstore or Appstore url." in
  (noop → handler = Raise PreventUpdate)
  ∧ (¬ noop → substring_of "apps.apple.com" url →
       handler = ('(app_id, app_name) ← get_app_id_name_from_appstore_url url;
                  appstore_export app_id app_name))
  ∧ (¬ noop → ¬ substring_of "apps.apple.com" url →
       substring_of "play.google.com" url →
       handler = (app_id ← get_app_id_from_playstore_url url;
                  playstore_export app_id))
  ∧ (¬ noop → ¬ substring_of "apps.apple.com" url →
       ¬ substring_of "play.google.com" url →
       handler = Raise (ValueError msg))
  ∧ ((∀ a b m, appstore_export a b ≠ Raise (ValueError m)) →
     (∀ a m, playstore_export a ≠ Raise (ValueError m)) →
     ∀ m, handler = Raise (ValueError m) →
       ¬ noop ∧ ¬ substring_of "apps.apple.com" url
       ∧ ¬ substring_of "play.google.com" url ∧ m = msg).
Proof.
  intros handler noop msg. subst handler. unfold start_review_scraping.
  assert (Hnoop : counter_is_zero n_clicks && counter_is_zero n_submits = true ↔ noop).
  { subst noop. rewrite andb_true_iff.
    destruct n_clicks as [c|], n_submits as [s|]; simpl;
      rewrite ?Z.eqb_eq; split; intros [? ?]; (done || split; congruence). }
  rewrite !not_substring_of_contains, !substring_of_contains.
  destruct (counter_is_zero n_clicks && counter_is_zero n_submits).
  { assert noop by by apply Hnoop. split_and!; try done. }
  assert (¬ noop) by (intros ?%Hnoop; done).
  destruct (PyStr.contains "apps.apple.com" url) eqn:Happle.
  { split_and!; try done. intros Ha _ m Hm.
    destruct (get_app_id_name_from_appstore_url url) as [[a b]|e] eqn:Hget;
      simpl in Hm; [by apply Ha in Hm|].
    apply appstore_ids_raises in Hget. congruence. }
  destruct (PyStr.contains "play.google.com" url) eqn:Hplay.
  { split_and!; try done. intros _ Hp m Hm.
    destruct (get_app_id_from_playstore_url url) as [a|e] eqn:Hget;
      simpl in Hm; [by apply Hp in Hm|].
    apply playstore_id_raises in Hget. congruence. }
  split_and!; try done. intros _ _ m [= <-].
  split_and!; [done | by apply not_substring_of_contains.. | done].
Qed.

(** ** Play Store pagination *)

Section Pagination.
Context {Review : Type}.
Variable pages : nat → list Review.
Variables app_id lang country : string.
Variable how_many : Z.

Lemma pages_from_S i k :
  pages_from pages i (S k) = pages i ++ pages_from pages (S i) k.
Proof. done. Qed.

(** The loop from any state: it ends within the fuel that the distance to
    the limit allows, having taken the pages up to the first one at which
    the limit is reached or the page is empty. *)
Lemma retrieve_loop_pages fuel (acc : list Review) (token : option nat) :
  let i := default 0%nat token in
  (Z.to_nat (how_many - Z.of_nat (length acc)) < fuel)%nat →
  ∃ k,
    retrieve_loop (paged_service pages) fuel app_id lang country how_many acc token
    = Some (acc ++ pages_from pages i k)
    ∧ (∀ j, (j < k)%nat →
         Z.of_nat (length (acc ++ pages_from pages i j)) < how_many
         ∧ pages (i + j) ≠ [])
    ∧ (how_many ≤ Z.of_nat (length (acc ++ pages_from pages i k))
       ∨ pages (i + k) = []).
Proof.
  revert acc token. induction fuel as [|fuel IH]; intros acc token i Hfuel; [lia|].
  cbn [retrieve_loop].
  destruct (Z.ltb_spec (Z.of_nat (length acc)) how_many) as [Hlt|Hge].
  - unfold paged_service at 1. fold i.
    destruct (pages i) as [|r page] eqn:Hpage.
    + exists 0%nat. rewrite Nat.add_0_r.
      unfold pages_from; simpl. rewrite app_nil_r.
      split_and!; [done | lia | by right].
    + destruct (IH (acc ++ r :: page) (Some (S i))) as (k & Hrun & Hbefore & Hstop).
      { rewrite length_app. simpl length. lia. }
      simpl default in *.
      exists (S k). rewrite pages_from_S, Hpage, app_assoc.
      split_and!; [done | | by rewrite Nat.add_succ_r].
      intros [|j] Hj.
      * unfold pages_from; simpl. rewrite app_nil_r, Nat.add_0_r.
        split; [lia | by rewrite Hpage].
      * destruct (Hbefore j) as [Hlen Hne]; [lia|].
        rewrite Nat.add_succ_r. split; [|done].
        by rewrite pages_from_S, Hpage, app_assoc.
  - exists 0%nat. unfold pages_from; simpl. rewrite app_nil_r.
    split_and!; [done | lia | left; lia].
Qed.
End Pagination.

(** C2: against any sequence of pages and for any limit, the loop ends and
    returns the first [k] pages in order, where [k] is the first number of
    pages at which the count has reached the limit or the next page is
    empty; nothing is cut off, so the result exceeds the limit by less than
    its last page.  With pages of 150, 150, 40 and then none and limit 1000
    it returns 340 reviews, with pages of 150 for ever and limit 200 it
    returns 300. *)
Theorem C2_pagination_stops_at_limit_or_empty_page :
  (∀ (Review : Type) (pages : nat → list Review)
     (app_id lang country : string) (how_many : Z),
     ∃ k,
       retrieve_playstore_reviews (paged_service pages) app_id lang country how_many
       = Some (pages_from pages 0 k)
       ∧ (∀ j, (j < k)%nat →
            Z.of_nat (length (pages_from pages 0 j)) < how_many ∧ pages j ≠ [])
       ∧ (how_many ≤ Z.of_nat (length (pages_from pages 0 k)) ∨ pages k = [])
       ∧ (∀ k', k = S k' →
            Z.of_nat (length (pages_from pages 0 k))
            < how_many + Z.of_nat (length (pages k'))))
  ∧ length <$> retrieve_playstore_reviews
      (paged_service (pages_of_sizes [150; 150; 40]%nat)) "app" "it" "it" 1000
    = Some 340%nat
  ∧ length <$> retrieve_playstore_reviews
      (paged_service (λ _, replicate 150 ())) "app" "it" "it" 200
    = Some 300%nat.
Proof.
  split; [|split; vm_compute; reflexivity].
  intros Review pages app_id lang country how_many.
  destruct (retrieve_loop_pages pages app_id lang country how_many
              (S (Z.to_nat how_many)) [] None) as (k & Hrun & Hbefore & Hstop).
  { simpl. lia. }
  simpl in Hrun, Hbefore, Hstop.
  exists k. split_and!; [done..|].
  intros k' ->. destruct (Hbefore k') as [Hlen _]; [lia|].
  replace (pages_from pages 0 (S k')) with (pages_from pages 0 k' ++ pages k').
  { rewrite length_app. lia. }
  unfold pages_from. rewrite seq_S, fmap_app, concat_app. simpl.
  by rewrite app_nil_r.
Qed.

(** ** Ordered dictionaries over a list of distinct keys *)

Section OrderedDictFacts.
Context {V : Type}.
Implicit Types (k : string) (keys pre : list string) (vals : list V)
  (d : list (string * V)).

Lemma od_get_notin k d : k ∉ d.*1 → od_get k d = None.
Proof.
  induction d as [|[k' v] d IH]; [done|]. simpl.
  intros [Hne Hnotin]%not_elem_of_cons.
  destruct (String.eqb_spec k' k); [congruence | by apply IH].
Qed.

Lemma od_set_notin k (v : V) d : k ∉ d.*1 → od_set k v d = d ++ [(k, v)].
Proof.
  induction d as [|[k' v'] d IH]; [done|]. simpl.
  intros [Hne Hnotin]%not_elem_of_cons.
  destruct (String.eqb_spec k' k); [congruence | by rewrite IH].
Qed.

Lemma od_get_app_r k d1 d2 : k ∉ d1.*1 → od_get k (d1 ++ d2) = od_get k d2.
Proof.
  induction d1 as [|[k' v] d1 IH]; [done|]. simpl.
  intros [Hne Hnotin]%not_elem_of_cons.
  destruct (String.eqb_spec k' k); [congruence | by apply IH].
Qed.

Lemma od_set_app_r k (v : V) d1 d2 :
  k ∉ d1.*1 → od_set k v (d1 ++ d2) = d1 ++ od_set k v d2.
Proof.
  induction d1 as [|[k' v'] d1 IH]; [done|]. simpl.
  intros [Hne Hnotin]%not_elem_of_cons.
  destruct (String.eqb_spec k' k); [congruence | by rewrite IH].
Qed.

(** Reading and writing the [i]-th key of a dictionary laid out as
    [zip keys vals]. *)
Lemma od_get_zip keys vals i k :
  NoDup keys → length keys = length vals → keys !! i = Some k →
  od_get k (zip keys vals) = vals !! i.
Proof.
  intros Hnd. revert vals i.
  induction Hnd as [|k' keys Hnotin Hnd IH]; intros [|v vals] i Hlen Hi;
    try done; simplify_eq/=.
  destruct i as [|i]; simplify_eq/=.
  - by rewrite String.eqb_refl.
  - destruct (String.eqb_spec k' k) as [->|Hne]; [|by apply IH].
    destruct Hnotin. by eapply list_elem_of_lookup_2.
Qed.

Lemma od_set_zip keys vals i k (v : V) :
  NoDup keys → length keys = length vals → keys !! i = Some k →
  od_set k v (zip keys vals) = zip keys (<[i:=v]> vals).
Proof.
  intros Hnd. revert vals i.
  induction Hnd as [|k' keys Hnotin Hnd IH]; intros [|v' vals] i Hlen Hi;
    try done; simplify_eq/=.
  destruct i as [|i]; simplify_eq/=.
  - by rewrite String.eqb_refl.
  - destruct (String.eqb_spec k' k) as [->|Hne]; [|by rewrite (IH _ i)].
    destruct Hnotin. by eapply list_elem_of_lookup_2.
Qed.

(** [{key: x for key in keys}] *)
Lemma od_init_zip (x : V) keys :
  NoDup keys →
  foldl (λ d key, od_set key x d) [] keys = zip keys (replicate (length keys) x).
Proof.
  intros Hnd.
  cut (∀ pre, NoDup (pre ++ keys) →
         foldl (λ d key, od_set key x d) (zip pre (replicate (length pre) x)) keys
         = zip (pre ++ keys) (replicate (length (pre ++ keys)) x)).
  { intros H. apply (H []). done. }
  clear Hnd. induction keys as [|k keys IH]; intros pre Hnd.
  - by rewrite app_nil_r.
  - simpl. rewrite od_set_notin.
    + replace (zip pre (replicate (length pre) x) ++ [(k, x)])
        with (zip (pre ++ [k]) (replicate (length (pre ++ [k])) x)).
      * rewrite IH by (by rewrite <- app_assoc). by rewrite <- app_assoc.
      * rewrite length_app, replicate_add, zip_with_app by by rewrite length_replicate.
        done.
    + rewrite fst_zip by (by rewrite length_replicate).
      apply NoDup_app in Hnd as (_ & Hnd & _). intros Hin.
      apply (Hnd _ Hin). by left.
Qed.
End OrderedDictFacts.

(** ** [traverse] *)

Section TraverseFacts.
Context {A B : Type}.
Implicit Types (f : A → result B) (l : list A) (m : list B).

Lemma traverse_Ok f l m :
  traverse f l = Ok m ↔ Forall2 (λ x y, f x = Ok y) l m.
Proof.
  split.
  - revert m. induction l as [|x l IH]; intros m; simpl.
    + intros [= <-]. constructor.
    + destruct (f x) as [y|] eqn:Hx; simpl; [|done].
      destruct (traverse f l) as [ys|]; simpl; [|done].
      intros [= <-]. constructor; [done | by apply IH].
  - induction 1 as [|x y l m Hx _ IH]; simpl; [done|].
    rewrite Hx. simpl. rewrite IH. done.
Qed.

Lemma traverse_length f l m : traverse f l = Ok m → length m = length l.
Proof. intros Hl%traverse_Ok. symmetry. by eapply Forall2_length. Qed.

Lemma traverse_lookup f l m i x :
  traverse f l = Ok m → l !! i = Some x → ∃ y, m !! i = Some y ∧ f x = Ok y.
Proof.
  intros Hl%traverse_Ok Hx.
  destruct (Forall2_lookup_l _ _ _ _ _ Hl Hx) as (y & ? & ?). eauto.
Qed.
End TraverseFacts.

(** ** The projection of [_format_generic] *)

Section Projection.
Implicit Types (rev : review) (revs : list review)
  (rks dcs pre : list string) (cols pcols : list (list pyval))
  (row : list pyval) (rows : list (list pyval)).

Lemma review_cells_length rks rev row :
  review_cells rks rev = Ok row → length row = length rks.
Proof. apply traverse_length. Qed.

Lemma review_cells_lookup rks rev row j rk :
  review_cells rks rev = Ok row → rks !! j = Some rk →
  ∃ v, rev !! rk = Some v ∧ row !! j = Some (strip_newlines v).
Proof.
  intros Hrow Hrk.
  destruct (traverse_lookup _ _ _ _ _ Hrow Hrk) as (y & Hy & Hv).
  destruct (rev !! rk) as [v|]; [|done]. exists v. by simplify_eq.
Qed.

(** One review: every column of the zipped pairs receives its cell. *)
Lemma project_review_zip rev rks dcs cols pre pcols :
  NoDup (pre ++ dcs) → length pre = length pcols →
  length rks = length dcs → length dcs = length cols →
  project_review rev (zip rks dcs) (zip (pre ++ dcs) (pcols ++ cols))
  = (row ← review_cells rks rev;
     Ok (zip (pre ++ dcs) (pcols ++ append_row cols row))).
Proof.
  revert dcs cols pre pcols.
  induction rks as [|rk rks IH]; intros [|dk dcs] [|c cols] pre pcols Hnd Hpre Hrks Hdcs;
    try done; simplify_eq/=.
  assert (Hdk : (pre ++ dk :: dcs) !! length pre = Some dk)
    by by rewrite list_lookup_middle.
  assert (Hlen : length (pre ++ dk :: dcs) = length (pcols ++ c :: cols))
    by (rewrite !length_app; simpl; lia).
  unfold od_getitem. rewrite (od_get_zip _ _ _ _ Hnd Hlen Hdk).
  rewrite Hpre, list_lookup_middle by done. simpl.
  unfold review_cells. simpl.
  destruct (rev !! rk) as [v|]; simpl; [|done].
  rewrite (od_set_zip _ _ _ _ _ Hnd Hlen Hdk).
  rewrite Hpre, insert_app_r_alt, Nat.sub_diag by done. simpl.
  rewrite (cons_middle dk pre dcs), (cons_middle (c ++ [strip_newlines v]) pcols cols).
  rewrite !app_assoc.
  rewrite IH; [| by rewrite <- app_assoc | rewrite !length_app; simpl; lia | done..].
  fold (review_cells rks rev).
  destruct (review_cells rks rev) as [row|]; simpl; [|done].
  by rewrite <- !app_assoc.
Qed.

(** All reviews: the columns receive the rows one after the other. *)
Lemma project_reviews_zip revs rks dcs cols :
  NoDup dcs → length rks = length dcs → length dcs = length cols →
  project_reviews revs (zip rks dcs) (zip dcs cols)
  = (rows ← traverse (review_cells rks) revs;
     Ok (zip dcs (foldl append_row cols rows))).
Proof.
  intros Hnd Hrks. revert cols.
  induction revs as [|rev revs IH]; intros cols Hdcs; simpl; [done|].
  pose proof (project_review_zip rev rks dcs cols [] []) as Hone.
  simpl in Hone. rewrite Hone by done. clear Hone.
  destruct (review_cells rks rev) as [row|] eqn:Hrow; simpl; [|done].
  rewrite IH.
  - by destruct (traverse (review_cells rks) revs).
  - unfold append_row. rewrite length_zip_with.
    apply review_cells_length in Hrow. lia.
Qed.

Lemma foldl_append_row_length rows cols :
  Forall (λ row, length row = length cols) rows →
  length (foldl append_row cols rows) = length cols.
Proof.
  revert cols. induction rows as [|row rows IH]; intros cols Hrows; [done|].
  apply Forall_cons in Hrows as [Hrow Hrows]. simpl.
  assert (length (append_row cols row) = length cols) as Hlen
    by (unfold append_row; rewrite length_zip_with; lia).
  rewrite IH; [done|]. by rewrite Hlen.
Qed.

(** Column [j] after the loop: what it held, then cell [j] of every row. *)
Lemma foldl_append_row_lookup rows cols j c :
  Forall (λ row, length row = length cols) rows →
  cols !! j = Some c →
  foldl append_row cols rows !! j
  = Some (c ++ ((λ row, default VNone (row !! j)) <$> rows)).
Proof.
  revert cols c. induction rows as [|row rows IH]; intros cols c Hrows Hc.
  - simpl. by rewrite app_nil_r.
  - apply Forall_cons in Hrows as [Hrow Hrows]. simpl.
    assert (length (append_row cols row) = length cols) as Hlen
      by (unfold append_row; rewrite length_zip_with; lia).
    destruct (lookup_lt_is_Some_2 row j) as [v Hv].
    { rewrite Hrow. by eapply lookup_lt_Some. }
    rewrite (IH _ (c ++ [v])).
    + rewrite Hv. simpl. by rewrite <- app_assoc.
    + by rewrite Hlen.
    + unfold append_row. rewrite lookup_zip_with, Hc, Hv. done.
Qed.
End Projection.

(** ** The date columns and the transposition *)

Section Columns.
Implicit Types (dcs : list string) (cols : list (list pyval))
  (col : list pyval) (rows : list (list pyval)).

Lemma format_datetime_column_zip key dcs cols i col :
  NoDup dcs → length dcs = length cols →
  dcs !! i = Some key → cols !! i = Some col →
  format_datetime_column key (zip dcs cols)
  = (col' ← traverse datetime_to_string col; Ok (zip dcs (<[i:=col']> cols))).
Proof.
  intros Hnd Hlen Hkey Hcol. unfold format_datetime_column, od_getitem.
  rewrite (od_get_zip _ _ _ _ Hnd Hlen Hkey), Hcol. simpl.
  destruct (traverse datetime_to_string col) as [col'|]; simpl; [|done].
  by rewrite (od_set_zip _ _ _ _ _ Hnd Hlen Hkey).
Qed.

Lemma np_transpose_Ok cols n :
  cols ≠ [] → Forall (λ c, length c = n) cols →
  np_transpose cols
  = Ok ((λ i, (λ c, default VNone (c !! i)) <$> cols) <$> seq 0 n).
Proof.
  intros Hne Hall. destruct cols as [|c cols]; [done|].
  unfold np_transpose.
  assert (length c = n) as -> by by apply Forall_cons in Hall as [? _].
  replace (forallb (λ c', (length c' =? n)%nat) (c :: cols)) with true; [done|].
  symmetry. apply forallb_forall. intros c' Hin.
  apply Nat.eqb_eq. rewrite Forall_forall in Hall. apply Hall.
  by apply list_elem_of_In.
Qed.

Lemma transposed_lookup cols n i :
  (i < n)%nat →
  ((λ i, (λ c, default VNone (c !! i)) <$> cols) <$> seq 0 n) !! i
  = Some ((λ c, default VNone (c !! i)) <$> cols).
Proof.
  intros Hi. rewrite list_lookup_fmap, lookup_seq_lt by done. done.
Qed.
End Columns.

(** ** The cells of the table of [_format_generic] *)

Lemma format_generic_cells revs dcs rks i0 i5 t :
  NoDup dcs → length rks = length dcs →
  dcs !! i0 = Some "Datetime" → dcs !! i5 = Some "Reply Datetime" →
  _format_generic revs dcs rks = Ok t →
  ∃ rows body,
    traverse (review_cells rks) revs = Ok rows
    ∧ t = (VStr <$> dcs) :: body
    ∧ length body = length revs
    ∧ ∀ i row, rows !! i = Some row →
        ∃ out, body !! i = Some out ∧ length out = length dcs
          ∧ ∀ j v, row !! j = Some v →
              ∃ cell, out !! j = Some cell
                ∧ cell_of (bool_decide (j = i0 ∨ j = i5)) v cell.
Proof.
  intros Hnd Hrks H0 H5. unfold _format_generic.
  rewrite (od_init_zip [] dcs Hnd).
  rewrite project_reviews_zip by (by rewrite ?length_replicate).
  destruct (traverse (review_cells rks) revs) as [rows|] eqn:Hrows; simpl; [|done].
  set (k := length dcs). set (cols1 := foldl append_row (replicate k []) rows).
  assert (Hrowlen : Forall (λ row, length row = length (replicate k ([] : list pyval))) rows).
  { rewrite length_replicate. apply Forall_forall. intros row Hin.
    apply list_elem_of_lookup in Hin as [i Hi].
    apply traverse_Ok in Hrows.
    destruct (Forall2_lookup_r _ _ _ _ _ Hrows Hi) as (rev & _ & Hrev).
    apply review_cells_length in Hrev. subst k. lia. }
  assert (Hlen1 : length cols1 = k).
  { subst cols1. rewrite foldl_append_row_length by done. by rewrite length_replicate. }
  assert (Hcol1 : ∀ j, (j < k)%nat →
            cols1 !! j = Some ((λ row, default VNone (row !! j)) <$> rows)).
  { intros j Hj. subst cols1.
    rewrite (foldl_append_row_lookup rows _ j []); [done..|].
    by rewrite lookup_replicate_2. }
  assert (Hi0 : (i0 < k)%nat) by (by eapply lookup_lt_Some).
  assert (Hi5 : (i5 < k)%nat) by (by eapply lookup_lt_Some).
  assert (Hne : i0 ≠ i5) by (intros ->; congruence).
  rewrite (format_datetime_column_zip _ _ _ i0 _ Hnd (eq_sym Hlen1) H0 (Hcol1 i0 Hi0)).
  destruct (traverse datetime_to_string _) as [col0|] eqn:Hcol0; simpl; [|done].
  set (cols2 := <[i0:=col0]> cols1).
  assert (Hlen2 : length cols2 = k) by (subst cols2; by rewrite length_insert).
  assert (Hcol25 : cols2 !! i5 = Some ((λ row, default VNone (row !! i5)) <$> rows)).
  { subst cols2. rewrite list_lookup_insert_ne by done. by apply Hcol1. }
  rewrite (format_datetime_column_zip _ _ _ i5 _ Hnd (eq_sym Hlen2) H5 Hcol25).
  destruct (traverse datetime_to_string _) as [col5|] eqn:Hcol5 in |- *; simpl; [|done].
  set (cols3 := <[i5:=col5]> cols2).
  assert (Hlen3 : length cols3 = k) by (subst cols3; by rewrite length_insert).
  rewrite snd_zip, fst_zip by lia.
  assert (Hn : length rows = length revs) by by eapply traverse_length.
  assert (Hcollen : Forall (λ c, length c = length revs) cols3).
  { apply Forall_forall. intros c Hin.
    apply list_elem_of_lookup in Hin as [j Hj].
    assert (j < k)%nat by (rewrite <- Hlen3; by eapply lookup_lt_Some).
    subst cols3. destruct (decide (j = i5)) as [->|Hj5].
    { rewrite list_lookup_insert_eq in Hj by lia. simplify_eq.
      apply traverse_length in Hcol5. by rewrite Hcol5, length_fmap. }
    rewrite list_lookup_insert_ne in Hj by done.
    subst cols2. destruct (decide (j = i0)) as [->|Hj0].
    { rewrite list_lookup_insert_eq in Hj by lia. simplify_eq.
      apply traverse_length in Hcol0. by rewrite Hcol0, length_fmap. }
    rewrite list_lookup_insert_ne, Hcol1 in Hj by done. simplify_eq.
    by rewrite length_fmap. }
  rewrite (np_transpose_Ok cols3 (length revs)); [|by intros ->; simpl in *; lia|done].
  simpl. intros [= <-]. eexists rows, _. split_and!; [done..| |].
  { by rewrite length_fmap, length_seq. }
  intros i row Hrow.
  assert (i < length revs)%nat by (rewrite <- Hn; by eapply lookup_lt_Some).
  eexists. split; [by apply transposed_lookup|]. split.
  { by rewrite length_fmap. }
  intros j v Hv.
  assert (j < k)%nat.
  { rewrite Forall_forall in Hrowlen. rewrite length_replicate in Hrowlen.
    rewrite <- (Hrowlen row); [by eapply lookup_lt_Some|].
    by eapply list_elem_of_lookup_2. }
  assert (Hraw : ((λ row, default VNone (row !! j)) <$> rows) !! i = Some v).
  { by rewrite list_lookup_fmap, Hrow; simpl; rewrite Hv. }
  rewrite list_lookup_fmap. subst cols3.
  destruct (decide (j = i5)) as [->|Hj5].
  { rewrite list_lookup_insert_eq by lia. simpl.
    destruct (traverse_lookup _ _ _ _ _ Hcol5 Hraw) as (cell & -> & Hcell).
    exists cell. rewrite bool_decide_true by by right. done. }
  rewrite list_lookup_insert_ne by done. subst cols2.
  destruct (decide (j = i0)) as [->|Hj0].
  { rewrite list_lookup_insert_eq by lia. simpl.
    destruct (traverse_lookup _ _ _ _ _ Hcol0 Hraw) as (cell & -> & Hcell).
    exists cell. rewrite bool_decide_true by by left. done. }
  rewrite list_lookup_insert_ne, Hcol1 by done. simpl. rewrite Hraw.
  exists v. rewrite bool_decide_false by (intros [?|?]; done). done.
Qed.

(** ** The App Store preprocessing *)

Section Preprocessing.
Variable strptime : string → string → result datetime.
Implicit Types (rev : review) (revs : list review).

Local Abbreviation preprocess := (preprocess_appstore_review strptime).
Local Abbreviation iso := "%Y-%m-%dT%H:%M:%SZ".

Lemma preprocess_no_response rev title text joined :
  rev !! "title" = Some title → rev !! "review" = Some text →
  py_add title text = Ok joined →
  rev !! "developerResponse" = None →
  preprocess rev = (preprocessed rev joined (VStr "") (VStr ""), Ok ()).
Proof.
  intros Ht Hr Hj Hd.
  unfold preprocess_appstore_review, mut_bind, getitem, setitem, has_key, mut_lift.
  rewrite Ht, Hr, Hj.
  rewrite bool_decide_false; [done|].
  rewrite lookup_insert_ne, Hd by done. by intros [? ?].
Qed.

Lemma preprocess_response rev title text joined response body modified replied :
  rev !! "title" = Some title → rev !! "review" = Some text →
  py_add title text = Ok joined →
  rev !! "developerResponse" = Some response →
  py_subscript response "body" = Ok body →
  py_subscript response "modified" = Ok modified →
  py_strptime strptime modified iso = Ok replied →
  preprocess rev = (preprocessed rev joined body (VDatetime replied), Ok ()).
Proof.
  intros Ht Hr Hj Hd Hb Hm Hp.
  unfold preprocess_appstore_review, mut_bind, getitem, setitem, has_key, mut_lift.
  rewrite Ht, Hr, Hj.
  rewrite bool_decide_true; [|by rewrite lookup_insert_ne, Hd].
  rewrite lookup_insert_ne, Hd, Hb by done.
  rewrite !lookup_insert_ne, Hd, Hm, Hp by done.
  done.
Qed.

(** A preprocessing that does not raise went one of these two ways. *)
Lemma preprocess_Ok_inv rev rev' :
  preprocess rev = (rev', Ok ()) →
  ∃ title text joined,
    rev !! "title" = Some title ∧ rev !! "review" = Some text
    ∧ py_add title text = Ok joined
    ∧ ((rev !! "developerResponse" = None
        ∧ rev' = preprocessed rev joined (VStr "") (VStr ""))
       ∨ (∃ response body modified replied,
            rev !! "developerResponse" = Some response
            ∧ py_subscript response "body" = Ok body
            ∧ py_subscript response "modified" = Ok modified
            ∧ py_strptime strptime modified iso = Ok replied
            ∧ rev' = preprocessed rev joined body (VDatetime replied))).
Proof.
  destruct (rev !! "title") as [title|] eqn:Ht; cycle 1.
  { unfold preprocess_appstore_review, mut_bind, getitem. by rewrite Ht. }
  destruct (rev !! "review") as [text|] eqn:Hr; cycle 1.
  { unfold preprocess_appstore_review, mut_bind, getitem. by rewrite Ht, Hr. }
  destruct (py_add title text) as [joined|] eqn:Hj; cycle 1.
  { unfold preprocess_appstore_review, mut_bind, getitem, mut_lift.
    by rewrite Ht, Hr, Hj. }
  destruct (rev !! "developerResponse") as [response|] eqn:Hd; cycle 1.
  { rewrite (preprocess_no_response _ _ _ _ Ht Hr Hj Hd). intros [= <-].
    exists title, text, joined. split_and!; [done..|]. by left. }
  destruct (py_subscript response "body") as [body|] eqn:Hb; cycle 1.
  { unfold preprocess_appstore_review, mut_bind, getitem, setitem, has_key, mut_lift.
    rewrite Ht, Hr, Hj.
    rewrite bool_decide_true; [|by rewrite lookup_insert_ne, Hd].
    by rewrite lookup_insert_ne, Hd, Hb. }
  destruct (py_subscript response "modified") as [modified|] eqn:Hm; cycle 1.
  { unfold preprocess_appstore_review, mut_bind, getitem, setitem, has_key, mut_lift.
    rewrite Ht, Hr, Hj.
    rewrite bool_decide_true; [|by rewrite lookup_insert_ne, Hd].
    rewrite lookup_insert_ne, Hd, Hb by done.
    by rewrite !lookup_insert_ne, Hd, Hm. }
  destruct (py_strptime strptime modified iso) as [replied|] eqn:Hp; cycle 1.
  { unfold preprocess_appstore_review, mut_bind, getitem, setitem, has_key, mut_lift.
    rewrite Ht, Hr, Hj.
    rewrite bool_decide_true; [|by rewrite lookup_insert_ne, Hd].
    rewrite lookup_insert_ne, Hd, Hb by done.
    by rewrite !lookup_insert_ne, Hd, Hm, Hp. }
  rewrite (preprocess_response _ _ _ _ _ _ _ _ Ht Hr Hj Hd Hb Hm Hp). intros [= <-].
  exists title, text, joined. split_and!; [done..|]. right.
  by exists response, body, modified, replied.
Qed.

(** The loop over the list: when it does not raise, every review was
    preprocessed, in place. *)
Lemma preprocess_all_Ok revs revs' :
  preprocess_appstore_reviews strptime revs = (revs', Ok ()) ↔
  Forall2 (λ rev rev', preprocess rev = (rev', Ok ())) revs revs'.
Proof.
  split.
  - revert revs'. induction revs as [|rev revs IH]; intros revs'; simpl.
    + intros [= <-]. constructor.
    + destruct (preprocess rev) as [rev1 [[]|e]] eqn:Hrev; [|done].
      destruct (preprocess_appstore_reviews strptime revs) as [rest r] eqn:Hrest.
      intros [= <- ->]. constructor; [done | by apply IH].
  - induction 1 as [|rev rev1 revs revs1 Hrev _ IH]; simpl; [done|].
    by rewrite Hrev, IH.
Qed.

Lemma formate_appstore_Ok revs revs' t :
  formate_appstore_reviews strptime revs = (revs', Ok t) ↔
  preprocess_appstore_reviews strptime revs = (revs', Ok ())
  ∧ _format_generic revs' appstore_dataset_cols appstore_revs_cols = Ok t.
Proof.
  unfold formate_appstore_reviews.
  destruct (preprocess_appstore_reviews strptime revs) as [revs1 [[]|e]]; simpl.
  - split; [by intros [= <- ->] | by intros [[= <-] ->]].
  - split; [done | by intros [[= ] _]].
Qed.
End Preprocessing.

(** ** The table, review by review *)

Lemma appstore_cols_NoDup : NoDup appstore_dataset_cols.
Proof. by apply (bool_decide_unpack _). Qed.

Lemma playstore_cols_NoDup : NoDup playstore_dataset_cols.
Proof. by apply (bool_decide_unpack _). Qed.

Lemma format_generic_review_cells revs dcs rks i0 i5 t :
  NoDup dcs → length rks = length dcs →
  dcs !! i0 = Some "Datetime" → dcs !! i5 = Some "Reply Datetime" →
  _format_generic revs dcs rks = Ok t →
  ∃ body,
    t = (VStr <$> dcs) :: body
    ∧ length body = length revs
    ∧ ∀ i rev, revs !! i = Some rev →
        ∃ out, body !! i = Some out ∧ length out = length dcs
          ∧ ∀ j rk, rks !! j = Some rk →
              ∃ v cell, rev !! rk = Some v ∧ out !! j = Some cell
                ∧ cell_of (bool_decide (j = i0 ∨ j = i5)) (strip_newlines v) cell.
Proof.
  intros Hnd Hrks H0 H5 Ht.
  destruct (format_generic_cells _ _ _ _ _ _ Hnd Hrks H0 H5 Ht)
    as (rows & body & Hrows & -> & Hlen & Hcells).
  exists body. split_and!; [done..|].
  intros i rev Hrev.
  destruct (traverse_lookup _ _ _ _ _ Hrows Hrev) as (row & Hrow & Hcellsrow).
  destruct (Hcells i row Hrow) as (out & Hout & Houtlen & Hcell).
  exists out. split_and!; [done..|].
  intros j rk Hrk.
  destruct (review_cells_lookup _ _ _ _ _ Hcellsrow Hrk) as (v & Hv & Hrowj).
  destruct (Hcell j _ Hrowj) as (cell & ? & ?). by exists v, cell.
Qed.

(** C10: for the empty list both formatters return the header row of their
    column names, in order, and nothing else. *)
Theorem C10_empty_list_gives_header_only (strptime : string → string → result datetime) :
  formate_appstore_reviews strptime []
  = ([], Ok [[VStr "Datetime"; VStr "Username"; VStr "Review"; VStr "Rating";
              VStr "Reply"; VStr "Reply Datetime"]])
  ∧ format_playstore_reviews []
    = ([], Ok [[VStr "Datetime"; VStr "Username"; VStr "Review"; VStr "Rating";
                VStr "Reply"; VStr "Reply Datetime"; VStr "Thumbs Up"]]).
Proof. split; reflexivity. Qed.

Lemma preprocessed_lookup rev joined reply replied :
  preprocessed rev joined reply replied !! "review" = Some joined
  ∧ preprocessed rev joined reply replied !! "replyContent" = Some reply
  ∧ preprocessed rev joined reply replied !! "repliedAt" = Some replied
  ∧ ∀ k, k ≠ "review" → k ≠ "replyContent" → k ≠ "repliedAt" →
      preprocessed rev joined reply replied !! k = rev !! k.
Proof.
  unfold preprocessed. split_and!.
  - rewrite !lookup_insert_ne by done. by rewrite lookup_insert_eq.
  - rewrite lookup_insert_ne by done. by rewrite lookup_insert_eq.
  - by rewrite lookup_insert_eq.
  - intros k ? ? ?. by rewrite !lookup_insert_ne by done.
Qed.

(** C6: on a raw review whose title and text are strings, the preprocessing
    writes title followed by text, nothing between, as the review text; with
    a developer response it writes the response's body as the reply and its
    parsed "modified" timestamp as the reply date, without one it writes the
    empty string as both; every other field is left as it was.  The review of
    the specification's example gives the row with Review "Great app" and
    empty Reply and Reply Datetime; one with a response modified on
    2024-02-29 gives its body and "29/02/2024". *)
Theorem C6_appstore_preprocessing (strptime : string → string → result datetime) :
  (∀ rev title text,
     rev !! "title" = Some (VStr title) → rev !! "review" = Some (VStr text) →
     (rev !! "developerResponse" = None →
        preprocess_appstore_review strptime rev
        = (preprocessed rev (VStr (title +:+ text)) (VStr "") (VStr ""), Ok ()))
     ∧ (∀ response body modified replied,
          rev !! "developerResponse" = Some (VDict response) →
          response !! "body" = Some body →
          response !! "modified" = Some (VStr modified) →
          strptime modified "%Y-%m-%dT%H:%M:%SZ" = Ok replied →
          preprocess_appstore_review strptime rev
          = (preprocessed rev (VStr (title +:+ text)) body (VDatetime replied), Ok ())))
  ∧ (∀ rev joined reply replied,
       preprocessed rev joined reply replied !! "review" = Some joined
       ∧ preprocessed rev joined reply replied !! "replyContent" = Some reply
       ∧ preprocessed rev joined reply replied !! "repliedAt" = Some replied
       ∧ ∀ k, k ≠ "review" → k ≠ "replyContent" → k ≠ "repliedAt" →
           preprocessed rev joined reply replied !! k = rev !! k)
  ∧ (∀ d user,
       (formate_appstore_reviews strptime
          [example_appstore_review (VDatetime d) (VStr user)]).2
       = Ok [[VStr "Datetime"; VStr "Username"; VStr "Review"; VStr "Rating";
              VStr "Reply"; VStr "Reply Datetime"];
             [VStr (strftime_dmY d); VStr (PyStr.replace (String LF "") "" user);
              VStr "Great app"; VInt 5; VStr ""; VStr ""]])
  ∧ (formate_appstore_reviews strptime_iso [example_appstore_reply]).2
    = Ok [[VStr "Datetime"; VStr "Username"; VStr "Review"; VStr "Rating";
           VStr "Reply"; VStr "Reply Datetime"];
          [VStr "05/03/2023"; VStr "bob"; VStr "Great app"; VInt 5;
           VStr "Thank you"; VStr "29/02/2024"]].
Proof.
  split_and!.
  - intros rev title text Ht Hr. split.
    + intros Hd. by eapply preprocess_no_response.
    + intros response body modified replied Hd Hb Hm Hp.
      eapply preprocess_response; try done; simpl; by rewrite ?Hb, ?Hm.
  - apply preprocessed_lookup.
  - intros d user. reflexivity.
  - vm_compute. reflexivity.
Qed.

(** From a cell of a data row back to the field it was made from. *)
Lemma table_data_cell revs dcs rks i0 i5 t i row j cell :
  NoDup dcs → length rks = length dcs →
  dcs !! i0 = Some "Datetime" → dcs !! i5 = Some "Reply Datetime" →
  _format_generic revs dcs rks = Ok t →
  t !! S i = Some row → row !! j = Some cell →
  ∃ rev rk v,
    revs !! i = Some rev ∧ rks !! j = Some rk ∧ rev !! rk = Some v
    ∧ cell_of (bool_decide (j = i0 ∨ j = i5)) (strip_newlines v) cell.
Proof.
  intros Hnd Hrks H0 H5 Ht Hrow Hcell.
  destruct (format_generic_review_cells _ _ _ _ _ _ Hnd Hrks H0 H5 Ht)
    as (body & -> & Hlen & Hcells).
  simpl in Hrow.
  destruct (lookup_lt_is_Some_2 revs i) as [rev Hrev].
  { rewrite <- Hlen. by eapply lookup_lt_Some. }
  destruct (Hcells i rev Hrev) as (out & Hout & Houtlen & Hcol).
  simplify_eq.
  destruct (lookup_lt_is_Some_2 rks j) as [rk Hrk].
  { rewrite Hrks, <- Houtlen. by eapply lookup_lt_Some. }
  destruct (Hcol j rk Hrk) as (v & cell' & Hv & Hcell' & Hof).
  simplify_eq. by exists rev, rk, v.
Qed.


Lemma strip_newlines_not_str v :
  isinstance_str v = false → strip_newlines v = v.
Proof. unfold strip_newlines. by intros ->. Qed.

Lemma strip_newlines_no_newline v s :
  strip_newlines v = VStr s → no_newline s.
Proof.
  destruct v as [| | |s0| |]; try done.
  change (strip_newlines (VStr s0))
    with (VStr (PyStr.replace (String LF "") "" s0)).
  intros Heq.
  assert (s = PyStr.replace (String LF "") "" s0) as -> by congruence.
  unfold no_newline. rewrite replace_char_filter.
  intros [? _]%list_elem_of_filter. done.
Qed.



(** ** Text cells *)



(** ** Date cells *)

Lemma digit_char_is_digit n : is_digit (digit_char (n mod 10)) = true.
Proof.
  pose proof (Z.mod_pos_bound n 10 eq_refl) as Hn.
  assert (n mod 10 = 0 ∨ n mod 10 = 1 ∨ n mod 10 = 2 ∨ n mod 10 = 3
          ∨ n mod 10 = 4 ∨ n mod 10 = 5 ∨ n mod 10 = 6 ∨ n mod 10 = 7
          ∨ n mod 10 = 8 ∨ n mod 10 = 9) as Hcases by lia.
  destruct Hcases as [->|[->|[->|[->|[->|[->|[->|[->|[->| ->]]]]]]]]]; reflexivity.
Qed.


Lemma datetime_to_string_cases v cell :
  datetime_to_string v = Ok cell →
  ((v = VNone ∨ ∃ s, v = VStr s) ∧ cell = VStr "")
  ∨ (∃ d, v = VDatetime d ∧ cell = VStr (strftime_dmY d)).
Proof.
  destruct v; simpl; intros Hc; simplify_eq; eauto 6.
Qed.

Lemma strip_newlines_date_cases v cell :
  datetime_to_string (strip_newlines v) = Ok cell →
  ((v = VNone ∨ ∃ s, v = VStr s) ∧ cell = VStr "")
  ∨ (∃ d, v = VDatetime d ∧ cell = VStr (strftime_dmY d)).
Proof.
  destruct v as [| | |s| |]; try apply datetime_to_string_cases.
  intros Hc. left. split; [eauto|].
  unfold strip_newlines in Hc. simpl in Hc. congruence.
Qed.



(** ** Calling a formatter twice on the same list *)

Section Twice.
Variable strptime : string → string → result datetime.
Implicit Types (rev : review) (revs : list review).

Local Abbreviation preprocess := (preprocess_appstore_review strptime).

Lemma py_add_str a text joined :
  py_add (VStr a) text = Ok joined →
  ∃ b, text = VStr b ∧ joined = VStr (a +:+ b).
Proof. destruct text; simpl; intros; simplify_eq. eauto. Qed.

Lemma preprocessed_again rev joined reply replied :
  preprocessed (preprocessed rev joined reply replied) joined reply replied
  = preprocessed rev joined reply replied.
Proof.
  unfold preprocessed at 1.
  destruct (preprocessed_lookup rev joined reply replied) as (H1 & H2 & H3 & _).
  rewrite (insert_id _ "review") by done.
  rewrite (insert_id _ "replyContent") by done.
  by rewrite insert_id.
Qed.

(** The second preprocessing of a review puts the title in front once
    more. *)
Lemma preprocess_twice rev rev1 a b :
  rev !! "title" = Some (VStr a) → rev !! "review" = Some (VStr b) →
  preprocess rev = (rev1, Ok ()) →
  ∃ reply replied,
    rev1 = preprocessed rev (VStr (a +:+ b)) reply replied
    ∧ preprocess rev1
      = (preprocessed rev1 (VStr (a +:+ a +:+ b)) reply replied, Ok ()).
Proof.
  intros Ha Hb Hpre.
  apply preprocess_Ok_inv in Hpre
    as (title & text & joined & Ht & Hr & Hj & Hcases).
  simplify_eq. simpl in Hj. simplify_eq.
  destruct Hcases as [[Hd ->]|(response & body & modified & replied & Hd & Hbody & Hm & Hp & ->)].
  - exists (VStr ""), (VStr ""). split; [done|].
    destruct (preprocessed_lookup rev (VStr (a +:+ b)) (VStr "") (VStr ""))
      as (H1 & _ & _ & Hkept).
    eapply preprocess_no_response; [by rewrite Hkept | done | done | by rewrite Hkept].
  - exists body, (VDatetime replied). split; [done|].
    destruct (preprocessed_lookup rev (VStr (a +:+ b)) body (VDatetime replied))
      as (H1 & _ & _ & Hkept).
    eapply preprocess_response; [by rewrite Hkept | done | done | by rewrite Hkept | done..].
Qed.

(** With an empty title the second preprocessing changes nothing. *)
Lemma preprocess_empty_title_again rev rev1 :
  rev !! "title" = Some (VStr "") →
  preprocess rev = (rev1, Ok ()) →
  preprocess rev1 = (rev1, Ok ()).
Proof.
  intros Ha Hpre.
  pose proof Hpre as Hinv.
  apply preprocess_Ok_inv in Hinv as (title & text & joined & Ht & Hr & Hj & _).
  simplify_eq. apply py_add_str in Hj as (b & -> & ->).
  destruct (preprocess_twice _ _ _ _ Ha Hr Hpre) as (reply & replied & Hrev1 & Hagain).
  rewrite Hagain. f_equal.
  change ("" +:+ "" +:+ b) with ("" +:+ b).
  rewrite Hrev1 at 1 2. by rewrite preprocessed_again.
Qed.

Lemma preprocess_all_empty_titles_again revs revs1 :
  Forall (λ rev, rev !! "title" = Some (VStr "")) revs →
  preprocess_appstore_reviews strptime revs = (revs1, Ok ()) →
  preprocess_appstore_reviews strptime revs1 = (revs1, Ok ()).
Proof.
  intros Htitles Hpre. apply preprocess_all_Ok in Hpre. apply preprocess_all_Ok.
  induction Hpre as [|rev rev1 revs revs1 Hone _ IH]; [constructor|].
  apply Forall_cons in Htitles as [Ht Hts].
  constructor; [by eapply preprocess_empty_title_again | by apply IH].
Qed.
End Twice.

(** C8 (amended): [format_playstore_reviews] leaves the list as it was, so a
    second call on the same list returns what the first returned;
    [formate_appstore_reviews] rewrites the reviews of the list, and a second
    call on the same list returns the same table when every title is the
    empty string, while in general the second preprocessing of a review puts
    its title in front of the text once more. *)
Theorem C8_second_call_on_the_same_list :
  (∀ revs,
     (format_playstore_reviews revs).1 = revs
     ∧ call_twice format_playstore_reviews revs
       = ((format_playstore_reviews revs).2, (format_playstore_reviews revs).2))
  ∧ (∀ strptime revs t,
       Forall (λ rev, rev !! "title" = Some (VStr "")) revs →
       (call_twice (formate_appstore_reviews strptime) revs).1 = Ok t →
       call_twice (formate_appstore_reviews strptime) revs = (Ok t, Ok t))
  ∧ (∀ strptime rev rev1 a b,
       rev !! "title" = Some (VStr a) → rev !! "review" = Some (VStr b) →
       preprocess_appstore_review strptime rev = (rev1, Ok ()) →
       ∃ rev2,
         preprocess_appstore_review strptime rev1 = (rev2, Ok ())
         ∧ rev1 !! "review" = Some (VStr (a +:+ b))
         ∧ rev2 !! "review" = Some (VStr (a +:+ a +:+ b))).
Proof.
  split_and!.
  - intros revs. split; reflexivity.
  - intros strptime revs t Htitles. unfold call_twice.
    destruct (formate_appstore_reviews strptime revs) as [revs1 t1] eqn:Hfirst.
    destruct (formate_appstore_reviews strptime revs1) as [revs2 t2] eqn:Hsecond.
    simpl. intros ->.
    apply formate_appstore_Ok in Hfirst as [Hpre Ht].
    assert (formate_appstore_reviews strptime revs1 = (revs1, Ok t)) as Hagain.
    { apply formate_appstore_Ok. split; [|done].
      by eapply preprocess_all_empty_titles_again. }
    congruence.
  - intros strptime rev rev1 a b Ha Hb Hpre.
    destruct (preprocess_twice _ _ _ _ _ Ha Hb Hpre) as (reply & replied & -> & Hagain).
    eexists. split; [done|].
    split; apply preprocessed_lookup.
Qed.

(** C8, as stated, fails: the second call on the same list sees the reviews
    the first call rewrote, and its table has the title twice. *)
Lemma C8_counterexample_second_call_differs :
  call_twice (formate_appstore_reviews strptime_iso)
    [example_appstore_review (VDatetime (Datetime 2023 3 5 10 20 30)) (VStr "bob")]
  = (Ok [[VStr "Datetime"; VStr "Username"; VStr "Review"; VStr "Rating";
          VStr "Reply"; VStr "Reply Datetime"];
         [VStr "05/03/2023"; VStr "bob"; VStr "Great app"; VInt 5;
          VStr ""; VStr ""]],
     Ok [[VStr "Datetime"; VStr "Username"; VStr "Review"; VStr "Rating";
          VStr "Reply"; VStr "Reply Datetime"];
         [VStr "05/03/2023"; VStr "bob"; VStr "GreatGreat app"; VInt 5;
          VStr ""; VStr ""]])
  ∧ (call_twice (formate_appstore_reviews strptime_iso)
       [example_appstore_review (VDatetime (Datetime 2023 3 5 10 20 30)) (VStr "bob")]).1
    ≠ (call_twice (formate_appstore_reviews strptime_iso)
         [example_appstore_review (VDatetime (Datetime 2023 3 5 10 20 30)) (VStr "bob")]).2.
Proof.
  assert (call_twice (formate_appstore_reviews strptime_iso)
    [example_appstore_review (VDatetime (Datetime 2023 3 5 10 20 30)) (VStr "bob")]
  = (Ok [[VStr "Datetime"; VStr "Username"; VStr "Review"; VStr "Rating";
          VStr "Reply"; VStr "Reply Datetime"];
         [VStr "05/03/2023"; VStr "bob"; VStr "Great app"; VInt 5;
          VStr ""; VStr ""]],
     Ok [[VStr "Datetime"; VStr "Username"; VStr "Review"; VStr "Rating";
          VStr "Reply"; VStr "Reply Datetime"];
         [VStr "05/03/2023"; VStr "bob"; VStr "GreatGreat app"; VInt 5;
          VStr ""; VStr ""]])) as Heq by (by vm_compute).
  split; [done|]. rewrite Heq. simpl. discriminate.
Qed.

(** ** The properties at concrete inputs *)

(** C1 at a real submission of an App Store URL, of a Play Store URL and of
    another URL, with branches that return the identifiers they are given. *)
Lemma C1_witness_three_urls :
  start_review_scraping (λ app_id app_name, Ok (app_id +:+ "," +:+ app_name)) Ok
    (Some 1) (Some 0) "https://apps.apple.com/it/app/enel-x-way/id1377291789"
  = Ok "1377291789,enel-x-way"
  ∧ start_review_scraping (λ app_id app_name, Ok (app_id +:+ "," +:+ app_name)) Ok
      (Some 0) (Some 1)
      "https://play.google.com/store/apps/details?id=com.enel.mobile.recharge2&hl=it&gl=US"
    = Ok "com.enel.mobile.recharge2"
  ∧ start_review_scraping (λ app_id app_name, Ok (app_id +:+ "," +:+ app_name)) Ok
      (Some 1) (Some 0) "https://example.com/app"
    = Raise (ValueError "Invalid url. Make sure to use a Playstore or Appstore url.").
Proof.
  split_and!.
  - destruct (C1_three_way_dispatch
                (λ app_id app_name, Ok (app_id +:+ "," +:+ app_name)) Ok
                (Some 1) (Some 0)
                "https://apps.apple.com/it/app/enel-x-way/id1377291789")
      as (_ & Happle & _).
    rewrite Happle; [reflexivity | by intros [? ?] |].
    by exists "https://", "/it/app/enel-x-way/id1377291789".
  - reflexivity.
  - reflexivity.
Defined.

(** C3 at the URL of the docstring. *)
Lemma C3_witness_docstring_url :
  ∃ name last_seg,
    ("https://apps.apple.com/it/app/enel-x-way/id1377291789"
       = name +:+ "/" +:+ last_seg
     ∨ ∃ pre, "https://apps.apple.com/it/app/enel-x-way/id1377291789"
              = pre +:+ "/" +:+ name +:+ "/" +:+ last_seg) ∧
    PyStr.contains "/" name = false ∧
    PyStr.contains "/" last_seg = false ∧
    get_app_id_name_from_appstore_url
      "https://apps.apple.com/it/app/enel-x-way/id1377291789"
    = Ok (PyStr.replace "id" "" last_seg, name).
Proof.
  destruct C3_appstore_ids_from_last_two_segments as (Hall & _).
  apply Hall. reflexivity.
Defined.

(** C9 at a malformed URL that has the marker and a "/". *)
Lemma C9_witness_malformed_url :
  ∃ app_id app_name,
    get_app_id_name_from_appstore_url "apps.apple.com/" = Ok (app_id, app_name).
Proof.
  destruct (C9_appstore_extraction_returns_iff_slash "apps.apple.com/") as [Hok _].
  apply Hok. reflexivity.
Defined.



(** C6 at the review with a developer response. *)
Lemma C6_witness_review_with_response :
  preprocess_appstore_review strptime_iso example_appstore_reply
  = (preprocessed example_appstore_reply (VStr ("Great" +:+ " app"))
       (VStr "Thank you") (VDatetime (Datetime 2024 2 29 8 30 0)), Ok ()).
Proof.
  destruct (C6_appstore_preprocessing strptime_iso) as (Hpre & _).
  destruct (Hpre example_appstore_reply "Great" " app" eq_refl eq_refl) as [_ Hresp].
  eapply Hresp; reflexivity.
Defined.


(** C8 at a review whose title is empty. *)
Lemma C8_witness_empty_title :
  call_twice (formate_appstore_reviews strptime_iso)
    [<["title" := VStr ""]> example_appstore_reply]
  = (Ok [[VStr "Datetime"; VStr "Username"; VStr "Review"; VStr "Rating";
          VStr "Reply"; VStr "Reply Datetime"];
         [VStr "05/03/2023"; VStr "bob"; VStr " app"; VInt 5;
          VStr "Thank you"; VStr "29/02/2024"]],
     Ok [[VStr "Datetime"; VStr "Username"; VStr "Review"; VStr "Rating";
          VStr "Reply"; VStr "Reply Datetime"];
         [VStr "05/03/2023"; VStr "bob"; VStr " app"; VInt 5;
          VStr "Thank you"; VStr "29/02/2024"]]).
Proof.
  destruct C8_second_call_on_the_same_list as (_ & Hempty & _).
  apply Hempty.
  - repeat constructor.
  - by vm_compute.
Defined.

(** * Further properties *)

(** ** The Play Store identifier *)

Section PlayStoreId.
Implicit Types (s t : string) (sep : ascii).

Lemma py_index_last_nonempty {A : Type} (xs : list A) x :
  py_index (xs ++ [x]) (-1) = Ok x.
Proof.
  apply (py_index_from_end _ 1); rewrite length_app; simpl; [lia|].
  rewrite lookup_app_r by lia.
  by replace (length xs + 1 - 1 - length xs)%nat with 0%nat by lia.
Qed.

Lemma py_index_first {A : Type} (x : A) (xs : list A) :
  py_index (x :: xs) 0 = Ok x.
Proof.
  unfold py_index. simpl length.
  destruct (Z.leb_spec (Z.of_nat (S (length xs))) 0); [lia | done].
Qed.

Lemma split_snoc sep s : ∃ segs x, PyStr.split sep s = segs ++ [x].
Proof.
  pose proof (split_nonempty sep s) as Hne.
  destruct (PyStr.split sep s) as [|y ys] using rev_ind; [done | eauto].
Qed.

(** Text without the separator put behind a string goes to its last segment. *)
Lemma split_app_no_sep sep s t segs x :
  PyStr.contains (String sep "") t = false →
  PyStr.split sep s = segs ++ [x] →
  PyStr.split sep (s +:+ t) = segs ++ [x +:+ t].
Proof.
  intros Ht. revert segs x. induction s as [|c s IH]; intros segs x Hs.
  - simpl in *. rewrite (split_no_sep _ _ Ht).
    destruct segs as [|? [|? ?]]; by simplify_eq/=.
  - simpl in *. destruct (Ascii.eqb c sep).
    + destruct segs as [|y segs]; simplify_eq/=.
      * by destruct (split_nonempty sep s).
      * by rewrite (IH segs x).
    + destruct (split_snoc sep s) as (segs' & x' & Hs'). rewrite Hs' in Hs.
      rewrite (IH _ _ Hs').
      destruct segs' as [|y' segs'']; simpl in *.
      * destruct segs as [|? [|? ?]]; by simplify_eq/=.
      * destruct segs as [|y segs]; simplify_eq/=.
        -- by destruct segs''.
        -- apply app_inj_tail in H0 as [-> ->]. done.
Qed.

Lemma playstore_id_of_query pre query :
  PyStr.contains "/" query = false → PyStr.contains "?" query = false →
  get_app_id_from_playstore_url (pre +:+ "?" +:+ query)
  = (c ← py_index (PyStr.split "&" query) 0; Ok (PyStr.replace "id=" "" c)).
Proof.
  intros Hslash Hq. unfold get_app_id_from_playstore_url.
  destruct (split_snoc "/" pre) as (segs & x & Hpre).
  assert (PyStr.contains "/" ("?" +:+ query) = false) as Hslash'.
  { change ("?" +:+ query) with (String "?" query).
    rewrite contains_char_cons. by rewrite Hslash. }
  rewrite (split_app_no_sep _ _ _ _ _ Hslash' Hpre), py_index_last_nonempty.
  simpl.
  change (x +:+ "?" +:+ query) with (x +:+ String "?" query).
  rewrite split_app, (split_no_sep "?" query Hq).
  destruct (split_snoc "?" x) as (qs & y & ->).
  rewrite <- app_assoc. simpl.
  by rewrite (py_index_last qs y query).
Qed.
End PlayStoreId.

(** X1: for a URL whose text after the last "?" has no "/", the Play Store
    extraction returns the first "&"-separated parameter of that text with
    every "id=" removed; so a URL ending in "?id=<app>" or
    "?id=<app>&<more>" gives [<app>] when [<app>] has no "/", "?", "&" or
    "id=" in it and [<more>] no "/" or "?". *)
Theorem X1_playstore_id_is_first_query_parameter (pre first more : string) :
  PyStr.contains "/" first = false → PyStr.contains "?" first = false →
  PyStr.contains "&" first = false →
  PyStr.contains "/" more = false → PyStr.contains "?" more = false →
  get_app_id_from_playstore_url (pre +:+ "?" +:+ first)
  = Ok (PyStr.replace "id=" "" first)
  ∧ get_app_id_from_playstore_url (pre +:+ "?" +:+ first +:+ "&" +:+ more)
    = Ok (PyStr.replace "id=" "" first)
  ∧ (∀ app, first = "id=" +:+ app → PyStr.contains "id=" app = false →
       PyStr.replace "id=" "" first = app).
Proof.
  intros Hf1 Hf2 Hf3 Hm1 Hm2. split_and!.
  - rewrite playstore_id_of_query by done.
    by rewrite (split_no_sep "&" first Hf3).
  - assert (∀ c, PyStr.contains (String c "") ("&" +:+ more)
               = Ascii.eqb "&" c || PyStr.contains (String c "") more) as Hamp.
    { intros c. change ("&" +:+ more) with (String "&" more).
      apply contains_char_cons. }
    rewrite playstore_id_of_query.
    + change (first +:+ "&" +:+ more) with (first +:+ String "&" more).
      rewrite split_app, (split_no_sep "&" first Hf3). done.
    + destruct (split_snoc "/" first) as (segs & x & Hs).
      pose proof (split_no_sep "/" first Hf1) as Hone. rewrite Hs in Hone.
      assert (PyStr.contains "/" ("&" +:+ more) = false) as Hnone
        by (by rewrite Hamp, Hm1).
      pose proof (split_app_no_sep _ _ _ _ _ Hnone Hs) as Hsplit.
      pose proof (split_segments "/" (first +:+ "&" +:+ more)) as Hall.
      rewrite Hsplit in Hall.
      destruct segs as [|? [|? ?]]; simplify_eq/=.
      by apply Forall_cons in Hall as [? _].
    + destruct (split_snoc "?" first) as (segs & x & Hs).
      pose proof (split_no_sep "?" first Hf2) as Hone. rewrite Hs in Hone.
      assert (PyStr.contains "?" ("&" +:+ more) = false) as Hnone
        by (by rewrite Hamp, Hm2).
      pose proof (split_app_no_sep _ _ _ _ _ Hnone Hs) as Hsplit.
      pose proof (split_segments "?" (first +:+ "&" +:+ more)) as Hall.
      rewrite Hsplit in Hall.
      destruct segs as [|? [|? ?]]; simplify_eq/=.
      by apply Forall_cons in Hall as [? _].
  - intros app -> Happ. rewrite replace_prefix by done.
    by rewrite replace_no_match.
Qed.

(** X1 at the URL of the docstring. *)
Lemma X1_witness_docstring_url :
  get_app_id_from_playstore_url
    "https://play.google.com/store/apps/details?id=com.enel.mobile.recharge2&hl=it&gl=US"
  = Ok "com.enel.mobile.recharge2".
Proof.
  destruct (X1_playstore_id_is_first_query_parameter
              "https://play.google.com/store/apps/details"
              "id=com.enel.mobile.recharge2" "hl=it&gl=US"
              eq_refl eq_refl eq_refl eq_refl eq_refl) as (_ & Hmore & Hid).
  rewrite (Hid "com.enel.mobile.recharge2" eq_refl eq_refl) in Hmore.
  exact Hmore.
Defined.

(** X2: the Play Store extraction never raises: every string has a last
    "/" segment, that segment a last "?" piece, and that piece a first "&"
    piece. *)
Theorem X2_playstore_extraction_never_raises (url : string) :
  ∃ app_id, get_app_id_from_playstore_url url = Ok app_id.
Proof.
  unfold get_app_id_from_playstore_url.
  destruct (split_snoc "/" url) as (segs & a & ->).
  rewrite py_index_last_nonempty. simpl.
  destruct (split_snoc "?" a) as (qs & b & ->).
  rewrite py_index_last_nonempty. simpl.
  pose proof (split_nonempty "&" b) as Hne.
  destruct (PyStr.split "&" b) as [|c cs]; [done|].
  rewrite py_index_first. simpl. eauto.
Qed.

(** ** Retrieval against any service *)

Section AnyService.
Context {Review Token : Type}.
Variable reviews :
  string → option Token → string → string → Z → list Review * option Token.
Variables app_id lang country : string.
Variable how_many : Z.

(** The loop from any state, against any service: it ends within the fuel
    that the distance to the limit allows; what it returns starts with what
    was accumulated; it added pages only while below the limit; and it
    stopped below the limit only on an empty page. *)
Lemma retrieve_loop_any fuel (acc : list Review) (token : option Token) :
  (Z.to_nat (how_many - Z.of_nat (length acc)) < fuel)%nat →
  ∃ result,
    retrieve_loop reviews fuel app_id lang country how_many acc token = Some result
    ∧ acc `prefix_of` result
    ∧ (result = acc
       ∨ ∃ before page tok,
           result = before ++ page
           ∧ Z.of_nat (length before) < how_many
           ∧ page = (reviews app_id tok lang country 150).1)
    ∧ (Z.of_nat (length result) < how_many →
       ∃ tok, (reviews app_id tok lang country 150).1 = []).
Proof.
  revert acc token. induction fuel as [|fuel IH]; intros acc token Hfuel; [lia|].
  cbn [retrieve_loop].
  destruct (Z.ltb_spec (Z.of_nat (length acc)) how_many) as [Hlt|Hge].
  - destruct (reviews app_id token lang country 150) as [page token'] eqn:Hcall.
    destruct page as [|r page].
    + exists acc. split_and!; [done | done | by left |].
      intros _. exists token. by rewrite Hcall.
    + destruct (IH (acc ++ r :: page) token') as (result & Hrun & Hpre & Hlast & Hstop).
      { rewrite length_app. simpl length. lia. }
      exists result. split_and!; [done | | | done].
      * etrans; [|done]. by apply prefix_app_r.
      * right. destruct Hlast as [->|(before & page' & tok & -> & Hlen & Hpage)].
        -- exists acc, (r :: page), token. by rewrite Hcall.
        -- by exists before, page', tok.
  - exists acc. split_and!; [done | done | by left | lia].
Qed.
End AnyService.

(** X3: against any service the Play Store retrieval ends and returns a
    list; with a limit of zero or less it returns the empty list; when the
    service never returns more than 150 reviews for a page, the list holds
    fewer than the limit plus 150 reviews; and it holds fewer than the limit
    only when the service returned an empty page. *)
Theorem X3_playstore_retrieval_ends_and_is_bounded {Review Token : Type}
    (reviews : string → option Token → string → string → Z
               → list Review * option Token)
    (app_id lang country : string) (how_many : Z) :
  ∃ result,
    retrieve_playstore_reviews reviews app_id lang country how_many = Some result
    ∧ (how_many ≤ 0 → result = [])
    ∧ ((∀ tok, (length (reviews app_id tok lang country 150%Z).1 ≤ 150)%nat) →
       Z.of_nat (length result) < Z.max 0 how_many + 150)
    ∧ (Z.of_nat (length result) < how_many →
       ∃ tok, (reviews app_id tok lang country 150).1 = []).
Proof.
  destruct (retrieve_loop_any reviews app_id lang country how_many
              (S (Z.to_nat how_many)) [] None)
    as (result & Hrun & _ & Hlast & Hstop).
  { simpl. lia. }
  exists result. split_and!; [done | | | done].
  - intros Hle. destruct Hlast as [->|(before & page & tok & -> & Hlen & _)]; [done|].
    lia.
  - intros Hpages.
    destruct Hlast as [->|(before & page & tok & -> & Hlen & ->)]; [simpl; lia|].
    rewrite length_app. specialize (Hpages tok). lia.
Qed.

(** ** App Store retrieval *)

Lemma py_slice_to_prefix {A : Type} (xs : list A) stop :
  py_slice_to xs stop `prefix_of` xs.
Proof. unfold py_slice_to. apply prefix_take. Qed.

Lemma py_slice_to_length {A : Type} (xs : list A) stop :
  Z.of_nat (length (py_slice_to xs stop))
  = if stop <? 0 then Z.max (stop + Z.of_nat (length xs)) 0
    else Z.min stop (Z.of_nat (length xs)).
Proof.
  unfold py_slice_to. rewrite length_take.
  destruct (Z.ltb_spec stop 0); lia.
Qed.

(** X4: what the App Store retrieval returns is the beginning of what the
    service holds: at most [how_many] reviews for a limit that is not
    negative, all of them when the service holds no more than that; with a
    negative limit, all but the last [-how_many]; an exception of the
    service is passed on. *)
Theorem X4_appstore_retrieval_truncates {Review : Type}
    (app_store_reviews : string → string → string → Z → result (list Review))
    (app_name app_id country : string) (how_many : Z) :
  (∀ fetched,
     app_store_reviews country app_name app_id how_many = Ok fetched →
     ∃ result,
       retrieve_appstore_reviews app_store_reviews app_name app_id country how_many
       = Ok result
       ∧ result `prefix_of` fetched
       ∧ (0 ≤ how_many →
          Z.of_nat (length result) = Z.min how_many (Z.of_nat (length fetched)))
       ∧ (Z.of_nat (length fetched) ≤ how_many → result = fetched)
       ∧ (how_many < 0 →
          Z.of_nat (length result)
          = Z.max 0 (Z.of_nat (length fetched) + how_many)))
  ∧ (∀ e,
       app_store_reviews country app_name app_id how_many = Raise e →
       retrieve_appstore_reviews app_store_reviews app_name app_id country how_many
       = Raise e).
Proof.
  split.
  - intros fetched Hf. unfold retrieve_appstore_reviews. rewrite Hf. simpl.
    eexists. split_and!; [done | apply py_slice_to_prefix | | |].
    + intros ?. rewrite py_slice_to_length. destruct (Z.ltb_spec how_many 0); lia.
    + intros ?. unfold py_slice_to.
      destruct (Z.ltb_spec how_many 0); [lia|].
      apply take_ge. lia.
    + intros ?. rewrite py_slice_to_length. destruct (Z.ltb_spec how_many 0); lia.
  - intros e He. unfold retrieve_appstore_reviews. by rewrite He.
Qed.

(** X4 at a service that holds five reviews when asked for three. *)
Lemma X4_witness_five_for_three :
  ∃ result,
    retrieve_appstore_reviews (λ _ _ _ _, Ok [1; 2; 3; 4; 5]) "enel-x-way"
      "1377291789" "it" 3 = Ok result
    ∧ result `prefix_of` [1; 2; 3; 4; 5]
    ∧ (0 ≤ 3 → Z.of_nat (length result) = Z.min 3 (Z.of_nat 5))
    ∧ (Z.of_nat 5 ≤ 3 → result = [1; 2; 3; 4; 5])
    ∧ (3 < 0 → Z.of_nat (length result) = Z.max 0 (Z.of_nat 5 + 3)).
Proof.
  destruct (X4_appstore_retrieval_truncates (λ _ _ _ _, Ok [1; 2; 3; 4; 5])
              "enel-x-way" "1377291789" "it" 3) as [Hok _].
  exact (Hok [1; 2; 3; 4; 5] eq_refl).
Defined.

(** ** The stages of [_format_generic] *)

Section TraverseMore.
Context {A B : Type}.
Implicit Types (f : A → result B) (l : list A).

Lemma traverse_Raise f l e :
  traverse f l = Raise e → ∃ x, x ∈ l ∧ f x = Raise e.
Proof.
  induction l as [|x l IH]; simpl; [done|].
  destruct (f x) as [y|e'] eqn:Hx; simpl.
  - destruct (traverse f l) as [ys|e'] eqn:Hl; simpl; [done|].
    intros [= ->]. destruct (IH eq_refl) as (x' & ? & ?).
    exists x'. split; [by right | done].
  - intros [= ->]. exists x. split; [by left | done].
Qed.

Lemma traverse_is_Ok f l :
  Forall (λ x, ∃ y, f x = Ok y) l → ∃ m, traverse f l = Ok m.
Proof.
  induction 1 as [|x l [y Hy] _ [m Hm]]; simpl; [by eexists|].
  rewrite Hy. simpl. rewrite Hm. simpl. by eexists.
Qed.
End TraverseMore.

Lemma review_cells_Raise rks rev e :
  review_cells rks rev = Raise e →
  e = KeyError ∧ ∃ rk, rk ∈ rks ∧ rev !! rk = None.
Proof.
  intros (rk & Hin & Hrk)%traverse_Raise.
  destruct (rev !! rk) eqn:Hv; [done|]. simplify_eq. eauto.
Qed.

Lemma datetime_to_string_Raise v e :
  datetime_to_string v = Raise e →
  e = AttributeError ∧ v ≠ VNone ∧ (∀ s, v ≠ VStr s) ∧ (∀ d, v ≠ VDatetime d).
Proof. destruct v; simpl; intros; by simplify_eq. Qed.

Lemma column_length j rows : length (column j rows) = length rows.
Proof. unfold column. by rewrite length_fmap. Qed.

Lemma column_lookup j rows i row :
  rows !! i = Some row → column j rows !! i = Some (default VNone (row !! j)).
Proof. intros Hrow. unfold column. by rewrite list_lookup_fmap, Hrow. Qed.

(** The call stage by stage: the projection of every review, then the
    Datetime column, then the Reply Datetime column; the first stage that
    raises decides the exception, and when none does a table is returned. *)
Lemma format_generic_stages revs dcs rks i0 i5 :
  NoDup dcs → length rks = length dcs →
  dcs !! i0 = Some "Datetime" → dcs !! i5 = Some "Reply Datetime" →
  match traverse (review_cells rks) revs with
  | Raise e => _format_generic revs dcs rks = Raise e
  | Ok rows =>
      match traverse datetime_to_string (column i0 rows) with
      | Raise e => _format_generic revs dcs rks = Raise e
      | Ok _ =>
          match traverse datetime_to_string (column i5 rows) with
          | Raise e => _format_generic revs dcs rks = Raise e
          | Ok _ => ∃ t, _format_generic revs dcs rks = Ok t
          end
      end
  end.
Proof.
  intros Hnd Hrks H0 H5. unfold _format_generic.
  rewrite (od_init_zip [] dcs Hnd).
  rewrite project_reviews_zip by (by rewrite ?length_replicate).
  destruct (traverse (review_cells rks) revs) as [rows|] eqn:Hrows; simpl; [|done].
  set (k := length dcs). set (cols1 := foldl append_row (replicate k []) rows).
  assert (Hrowlen : Forall (λ row, length row = length (replicate k ([] : list pyval))) rows).
  { rewrite length_replicate. apply Forall_forall. intros row Hin.
    apply list_elem_of_lookup in Hin as [i Hi].
    apply traverse_Ok in Hrows.
    destruct (Forall2_lookup_r _ _ _ _ _ Hrows Hi) as (rev & _ & Hrev).
    apply review_cells_length in Hrev. subst k. lia. }
  assert (Hlen1 : length cols1 = k).
  { subst cols1. rewrite foldl_append_row_length by done. by rewrite length_replicate. }
  assert (Hcol1 : ∀ j, (j < k)%nat → cols1 !! j = Some (column j rows)).
  { intros j Hj. subst cols1.
    rewrite (foldl_append_row_lookup rows _ j []); [done..|].
    by rewrite lookup_replicate_2. }
  assert (Hi0 : (i0 < k)%nat) by (by eapply lookup_lt_Some).
  assert (Hi5 : (i5 < k)%nat) by (by eapply lookup_lt_Some).
  assert (Hne : i0 ≠ i5) by (intros ->; congruence).
  rewrite (format_datetime_column_zip _ _ _ i0 _ Hnd (eq_sym Hlen1) H0 (Hcol1 i0 Hi0)).
  destruct (traverse datetime_to_string (column i0 rows)) as [col0|] eqn:Hcol0;
    simpl; [|done].
  set (cols2 := <[i0:=col0]> cols1).
  assert (Hlen2 : length cols2 = k) by (subst cols2; by rewrite length_insert).
  assert (Hcol25 : cols2 !! i5 = Some (column i5 rows)).
  { subst cols2. rewrite list_lookup_insert_ne by done. by apply Hcol1. }
  rewrite (format_datetime_column_zip _ _ _ i5 _ Hnd (eq_sym Hlen2) H5 Hcol25).
  destruct (traverse datetime_to_string (column i5 rows)) as [col5|] eqn:Hcol5;
    simpl; [|done].
  set (cols3 := <[i5:=col5]> cols2).
  assert (Hlen3 : length cols3 = k) by (subst cols3; by rewrite length_insert).
  rewrite snd_zip, fst_zip by lia.
  assert (Hcollen : Forall (λ c, length c = length rows) cols3).
  { apply Forall_forall. intros c Hin.
    apply list_elem_of_lookup in Hin as [j Hj].
    assert (j < k)%nat by (rewrite <- Hlen3; by eapply lookup_lt_Some).
    subst cols3. destruct (decide (j = i5)) as [->|Hj5].
    { rewrite list_lookup_insert_eq in Hj by lia. simplify_eq.
      apply traverse_length in Hcol5. by rewrite Hcol5, column_length. }
    rewrite list_lookup_insert_ne in Hj by done.
    subst cols2. destruct (decide (j = i0)) as [->|Hj0].
    { rewrite list_lookup_insert_eq in Hj by lia. simplify_eq.
      apply traverse_length in Hcol0. by rewrite Hcol0, column_length. }
    rewrite list_lookup_insert_ne, Hcol1 in Hj by done. simplify_eq.
    by rewrite column_length. }
  rewrite (np_transpose_Ok cols3 (length rows)); [|by intros ->; simpl in *; lia|done].
  simpl. by eexists.
Qed.

(** ** [_format_generic] row by row *)

Lemma cell_of_finish b v cell : cell_of b v cell ↔ finish_cell b v = Ok cell.
Proof. destruct b; simpl; [done|]. split; [by intros -> | by intros [= ->]]. Qed.

Lemma is_date_column_index dcs i0 i5 j dk :
  NoDup dcs →
  dcs !! i0 = Some "Datetime" → dcs !! i5 = Some "Reply Datetime" →
  dcs !! j = Some dk →
  is_date_column dk = bool_decide (j = i0 ∨ j = i5).
Proof.
  intros Hnd H0 H5 Hj. apply bool_decide_ext. split.
  - intros [->| ->]; [left | right]; by eapply NoDup_lookup.
  - intros [->| ->]; simplify_eq; [by left | by right].
Qed.

(** The row of one review, cell by cell. *)
Lemma format_row_cells dcs rks rev out :
  length rks = length dcs →
  format_row dcs rks rev = Ok out ↔
  length out = length dcs
  ∧ ∀ j rk dk, rks !! j = Some rk → dcs !! j = Some dk →
      ∃ v cell, rev !! rk = Some v ∧ out !! j = Some cell
        ∧ finish_cell (is_date_column dk) (strip_newlines v) = Ok cell.
Proof.
  intros Hlen. unfold format_row.
  rewrite traverse_Ok, Forall2_same_length_lookup, length_zip_with.
  split.
  - intros [Hout Hcells]. split; [lia|]. intros j rk dk Hrk Hdk.
    destruct (lookup_lt_is_Some_2 out j) as [cell Hcell].
    { rewrite <- Hout. apply lookup_lt_Some in Hrk. lia. }
    assert (zip rks dcs !! j = Some (rk, dk)) as Hpair.
    { apply lookup_zip_with_Some. eauto. }
    specialize (Hcells j _ _ Hpair Hcell). simpl in Hcells.
    destruct (rev !! rk) as [v|]; [|done]. by exists v, cell.
  - intros [Hout Hcells]. split; [lia|]. intros j [rk dk] cell Hpair Hcell.
    apply lookup_zip_with_Some in Hpair as (rk' & dk' & [= -> ->] & Hrk & Hdk).
    destruct (Hcells j _ _ Hrk Hdk) as (v & cell' & Hv & Hcell' & Hfin).
    rewrite Hv. simpl. congruence.
Qed.

Lemma format_row_review_cells dcs rks rev out :
  length rks = length dcs →
  format_row dcs rks rev = Ok out →
  ∃ row, review_cells rks rev = Ok row.
Proof.
  intros Hlen [_ Hcells]%format_row_cells; [|done].
  apply traverse_is_Ok, Forall_lookup. intros j rk Hrk.
  destruct (lookup_lt_is_Some_2 dcs j) as [dk Hdk].
  { rewrite <- Hlen. by eapply lookup_lt_Some. }
  destruct (Hcells j rk dk Hrk Hdk) as (v & _ & -> & _). eauto.
Qed.

Lemma format_row_date_cell dcs rks rev out row j dk :
  length rks = length dcs →
  format_row dcs rks rev = Ok out → review_cells rks rev = Ok row →
  dcs !! j = Some dk → is_date_column dk = true →
  ∃ cell, datetime_to_string (default VNone (row !! j)) = Ok cell.
Proof.
  intros Hlen [_ Hcells]%format_row_cells Hrow Hdk Hdate; [|done].
  destruct (lookup_lt_is_Some_2 rks j) as [rk Hrk].
  { rewrite Hlen. by eapply lookup_lt_Some. }
  destruct (Hcells j rk dk Hrk Hdk) as (v & cell & Hv & _ & Hfin).
  destruct (review_cells_lookup _ _ _ _ _ Hrow Hrk) as (v' & Hv' & ->).
  simplify_eq. rewrite Hdate in Hfin. by exists cell.
Qed.

Lemma format_generic_rowwise revs dcs rks t :
  NoDup dcs → length rks = length dcs →
  "Datetime" ∈ dcs → "Reply Datetime" ∈ dcs →
  _format_generic revs dcs rks = Ok t ↔
  ∃ body,
    Forall2 (λ rev row, format_row dcs rks rev = Ok row) revs body
    ∧ t = (VStr <$> dcs) :: body.
Proof.
  intros Hnd Hlen [i0 H0]%list_elem_of_lookup [i5 H5]%list_elem_of_lookup.
  assert (Hforward : ∀ t',
    _format_generic revs dcs rks = Ok t' →
    ∃ body,
      Forall2 (λ rev row, format_row dcs rks rev = Ok row) revs body
      ∧ t' = (VStr <$> dcs) :: body).
  { intros t' Ht'.
    destruct (format_generic_review_cells _ _ _ _ _ _ Hnd Hlen H0 H5 Ht')
      as (body & -> & Hbody & Hcells).
    exists body. split; [|done].
    apply Forall2_same_length_lookup_2; [done|].
    intros i rev row Hrev Hrow.
    destruct (Hcells i rev Hrev) as (out & Hout & Houtlen & Hcol). simplify_eq.
    apply format_row_cells; [done|]. split; [done|].
    intros j rk dk Hrk Hdk.
    destruct (Hcol j rk Hrk) as (v & cell & Hv & Hcell & Hof).
    exists v, cell. split_and!; [done..|].
    rewrite (is_date_column_index _ _ _ _ _ Hnd H0 H5 Hdk).
    by apply cell_of_finish. }
  split; [apply Hforward|].
  intros (body & Hrows & ->).
  pose proof (format_generic_stages revs dcs rks i0 i5 Hnd Hlen H0 H5) as Hstages.
  destruct (traverse_is_Ok (review_cells rks) revs) as [rows Hcells].
  { apply Forall_lookup. intros i rev Hrev.
    destruct (Forall2_lookup_l _ _ _ _ _ Hrows Hrev) as (out & _ & Hout).
    by eapply format_row_review_cells. }
  rewrite Hcells in Hstages.
  assert (Hdatecol : ∀ j dk, dcs !! j = Some dk → is_date_column dk = true →
            ∃ col, traverse datetime_to_string (column j rows) = Ok col).
  { intros j dk Hdk Hdate. apply traverse_is_Ok, Forall_lookup.
    intros i v Hv. unfold column in Hv. rewrite list_lookup_fmap in Hv.
    destruct (rows !! i) as [row|] eqn:Hrow; simplify_eq/=.
    apply traverse_Ok in Hcells.
    destruct (Forall2_lookup_r _ _ _ _ _ Hcells Hrow) as (rev & Hrev & Hrc).
    destruct (Forall2_lookup_l _ _ _ _ _ Hrows Hrev) as (out & _ & Hout).
    by eapply format_row_date_cell. }
  destruct (Hdatecol i0 _ H0 eq_refl) as [col0 Hcol0].
  destruct (Hdatecol i5 _ H5 eq_refl) as [col5 Hcol5].
  rewrite Hcol0, Hcol5 in Hstages. destruct Hstages as [t Ht].
  destruct (Hforward t Ht) as (body' & Hrows' & ->).
  rewrite Ht. do 2 f_equal.
  eapply Forall2_unique; [done..|]. intros rev row1 row2 ? ?. congruence.
Qed.


Lemma playstore_cols_dates :
  "Datetime" ∈ playstore_dataset_cols ∧ "Reply Datetime" ∈ playstore_dataset_cols.
Proof. split; apply list_elem_of_In; simpl; tauto. Qed.

Lemma appstore_cols_dates :
  "Datetime" ∈ appstore_dataset_cols ∧ "Reply Datetime" ∈ appstore_dataset_cols.
Proof. split; apply list_elem_of_In; simpl; tauto. Qed.




(** X7: under the same conditions, a table that [_format_generic] returns
    has one row more than there are reviews, its first row is the column
    names, and every row has as many cells as there are columns. *)
Theorem X7_format_generic_table_is_rectangular
    (revs : list review) (dcs rks : list string) (t : table) :
  NoDup dcs → length rks = length dcs →
  "Datetime" ∈ dcs → "Reply Datetime" ∈ dcs →
  _format_generic revs dcs rks = Ok t →
  length t = S (length revs)
  ∧ t !! 0%nat = Some (VStr <$> dcs)
  ∧ Forall (λ row, length row = length dcs) t.
Proof.
  intros Hnd Hlen H0 H5 (body & Hrows & ->)%format_generic_rowwise; [|done..].
  split_and!.
  - simpl. f_equal. symmetry. by eapply Forall2_length.
  - done.
  - constructor; [by rewrite length_fmap|].
    apply Forall_lookup. intros i row Hrow.
    destruct (Forall2_lookup_r _ _ _ _ _ Hrows Hrow) as (rev & _ & Hfmt).
    by apply format_row_cells in Hfmt as [? _].
Qed.

(** X7 at the Play Store example. *)
Lemma X7_witness_playstore_example :
  length [[VStr "Datetime"; VStr "Username"; VStr "Review"; VStr "Rating";
           VStr "Reply"; VStr "Reply Datetime"; VStr "Thumbs Up"];
          [VStr "05/03/2023"; VStr "ann"; VStr "abc"; VInt 4; VNone; VStr "";
           VInt 12]] = 2%nat
  ∧ [[VStr "Datetime"; VStr "Username"; VStr "Review"; VStr "Rating";
      VStr "Reply"; VStr "Reply Datetime"; VStr "Thumbs Up"];
     [VStr "05/03/2023"; VStr "ann"; VStr "abc"; VInt 4; VNone; VStr "";
      VInt 12]] !! 0%nat = Some (VStr <$> playstore_dataset_cols)
  ∧ Forall (λ row, length row = 7%nat)
      [[VStr "Datetime"; VStr "Username"; VStr "Review"; VStr "Rating";
        VStr "Reply"; VStr "Reply Datetime"; VStr "Thumbs Up"];
       [VStr "05/03/2023"; VStr "ann"; VStr "abc"; VInt 4; VNone; VStr "";
        VInt 12]].
Proof.
  apply (X7_format_generic_table_is_rectangular [example_playstore_review]
           playstore_dataset_cols playstore_revs_cols _
           playstore_cols_NoDup eq_refl
           (proj1 playstore_cols_dates) (proj2 playstore_cols_dates)).
  by vm_compute.
Defined.

(** ** When [_format_generic] raises *)

Section FormatErrors.
Variables (revs : list review) (dcs rks : list string) (i0 i5 : nat).
Hypothesis Hnd : NoDup dcs.
Hypothesis Hlen : length rks = length dcs.
Hypothesis H0 : dcs !! i0 = Some "Datetime".
Hypothesis H5 : dcs !! i5 = Some "Reply Datetime".

Lemma projection_Raise e :
  traverse (review_cells rks) revs = Raise e → e = KeyError ∧ (missing_field revs rks).
Proof.
  intros (rev & Hrev & Hraise)%traverse_Raise.
  apply review_cells_Raise in Hraise as (-> & rk & Hrk & Hnone).
  split; [done|]. by exists rev, rk.
Qed.

Lemma projection_Ok rows :
  traverse (review_cells rks) revs = Ok rows → ¬ (missing_field revs rks).
Proof.
  intros Hrows%traverse_Ok (rev & rk & Hrev & Hrk & Hnone).
  apply list_elem_of_lookup in Hrev as [i Hi].
  apply list_elem_of_lookup in Hrk as [j Hj].
  destruct (Forall2_lookup_l _ _ _ _ _ Hrows Hi) as (row & _ & Hrow).
  destruct (review_cells_lookup _ _ _ _ _ Hrow Hj) as (v & Hv & _). congruence.
Qed.

Lemma strip_newlines_date_like v cell :
  datetime_to_string (strip_newlines v) = Ok cell → date_like v.
Proof.
  intros [[[->|[s ->]] _]|[d [-> _]]]%strip_newlines_date_cases;
    unfold date_like; eauto.
Qed.

Lemma date_like_formats v :
  date_like v → ∃ cell, datetime_to_string (strip_newlines v) = Ok cell.
Proof. intros [->|[[s ->]|[d ->]]]; by eexists. Qed.

(** A cell of column [j] of the projected rows is the cleaned field [j] of
    a review. *)
Lemma column_elem rows j rk x :
  traverse (review_cells rks) revs = Ok rows → rks !! j = Some rk →
  x ∈ column j rows →
  ∃ rev v, rev ∈ revs ∧ rev !! rk = Some v ∧ x = strip_newlines v.
Proof.
  intros Hrows%traverse_Ok Hrk Hx. unfold column in Hx.
  apply list_elem_of_fmap in Hx as (row & -> & Hrow).
  apply list_elem_of_lookup in Hrow as [i Hi].
  destruct (Forall2_lookup_r _ _ _ _ _ Hrows Hi) as (rev & Hrev & Hcells).
  destruct (review_cells_lookup _ _ _ _ _ Hcells Hrk) as (v & Hv & ->).
  exists rev, v. split_and!; [by eapply list_elem_of_lookup_2 | done | done].
Qed.

Lemma column_of_field rows j rk rev v :
  traverse (review_cells rks) revs = Ok rows → rks !! j = Some rk →
  rev ∈ revs → rev !! rk = Some v →
  strip_newlines v ∈ column j rows.
Proof.
  intros Hrows%traverse_Ok Hrk [i Hi]%list_elem_of_lookup Hv.
  destruct (Forall2_lookup_l _ _ _ _ _ Hrows Hi) as (row & Hrow & Hcells).
  destruct (review_cells_lookup _ _ _ _ _ Hcells Hrk) as (v' & Hv' & Hcell).
  simplify_eq. apply list_elem_of_lookup. exists i.
  by rewrite (column_lookup _ _ _ _ Hrow), Hcell.
Qed.

Lemma date_column_Raise rows j rk e :
  traverse (review_cells rks) revs = Ok rows → rks !! j = Some rk →
  traverse datetime_to_string (column j rows) = Raise e →
  e = AttributeError
  ∧ ∃ rev v, rev ∈ revs ∧ rev !! rk = Some v ∧ ¬ date_like v.
Proof.
  intros Hrows Hrk (x & Hx & Hraise)%traverse_Raise.
  destruct (column_elem _ _ _ _ Hrows Hrk Hx) as (rev & v & Hrev & Hv & ->).
  pose proof (datetime_to_string_Raise _ _ Hraise) as [-> _].
  split; [done|]. exists rev, v. split_and!; [done..|].
  intros [cell Hcell]%date_like_formats. congruence.
Qed.

Lemma date_column_Ok rows j rk col rev v :
  traverse (review_cells rks) revs = Ok rows → rks !! j = Some rk →
  traverse datetime_to_string (column j rows) = Ok col →
  rev ∈ revs → rev !! rk = Some v → date_like v.
Proof.
  intros Hrows Hrk Hcol Hrev Hv.
  pose proof (column_of_field _ _ _ _ _ Hrows Hrk Hrev Hv) as [i Hi]%list_elem_of_lookup.
  destruct (traverse_lookup _ _ _ _ _ Hcol Hi) as (cell & _ & Hcell).
  by eapply strip_newlines_date_like.
Qed.

Lemma date_field_keys : ∃ rk0 rk5, rks !! i0 = Some rk0 ∧ rks !! i5 = Some rk5.
Proof.
  destruct (lookup_lt_is_Some_2 rks i0) as [rk0 ?].
  { rewrite Hlen. by eapply lookup_lt_Some. }
  destruct (lookup_lt_is_Some_2 rks i5) as [rk5 ?].
  { rewrite Hlen. by eapply lookup_lt_Some. }
  eauto.
Qed.

Lemma format_generic_raises :
  (∀ e, _format_generic revs dcs rks = Raise e → e = KeyError ∨ e = AttributeError)
  ∧ (_format_generic revs dcs rks = Raise KeyError ↔ (missing_field revs rks))
  ∧ (_format_generic revs dcs rks = Raise AttributeError ↔
       ¬ (missing_field revs rks) ∧ (bad_date_field revs rks i0 i5))
  ∧ ((∃ t, _format_generic revs dcs rks = Ok t) ↔
       ¬ (missing_field revs rks) ∧ ¬ (bad_date_field revs rks i0 i5)).
Proof.
  pose proof (format_generic_stages revs dcs rks i0 i5 Hnd Hlen H0 H5) as Hstages.
  destruct date_field_keys as (rk0 & rk5 & Hrk0 & Hrk5).
  destruct (traverse (review_cells rks) revs) as [rows|e0] eqn:Hrows.
  2:{ destruct (projection_Raise _ Hrows) as [-> Hmiss].
      rewrite Hstages. split_and!.
      - intros e [= <-]. by left.
      - done.
      - split; [done | by intros [? _]].
      - split; [by intros [? ?] | by intros [? _]]. }
  pose proof (projection_Ok _ Hrows) as Hnomiss.
  destruct (traverse datetime_to_string (column i0 rows)) as [col0|e0] eqn:Hcol0.
  2:{ destruct (date_column_Raise _ _ _ _ Hrows Hrk0 Hcol0)
        as (-> & rev & v & Hrev & Hv & Hbad).
      assert (bad_date_field revs rks i0 i5) as Hbadfield by (exists rev, i0, rk0, v; eauto 10).
      rewrite Hstages. split_and!.
      - intros e [= <-]. by right.
      - split; [done | by intros ?].
      - done.
      - split; [by intros [? ?] | by intros [_ ?]]. }
  destruct (traverse datetime_to_string (column i5 rows)) as [col5|e0] eqn:Hcol5.
  2:{ destruct (date_column_Raise _ _ _ _ Hrows Hrk5 Hcol5)
        as (-> & rev & v & Hrev & Hv & Hbad).
      assert (bad_date_field revs rks i0 i5) as Hbadfield by (exists rev, i5, rk5, v; eauto 10).
      rewrite Hstages. split_and!.
      - intros e [= <-]. by right.
      - split; [done | by intros ?].
      - done.
      - split; [by intros [? ?] | by intros [_ ?]]. }
  destruct Hstages as [t Ht]. rewrite Ht.
  assert (¬ (bad_date_field revs rks i0 i5)) as Hgood.
  { intros (rev & j & rk & v & Hrev & [-> | ->] & Hrk & Hv & Hbad);
      simplify_eq; apply Hbad.
    - by eapply (date_column_Ok rows i0).
    - by eapply (date_column_Ok rows i5). }
  split_and!.
  - done.
  - split; [done | by intros ?].
  - split; [done | by intros [_ ?]].
  - split; [done | by eexists].
Qed.
End FormatErrors.

(** X8: under the conditions both formatters meet, [_format_generic] raises
    nothing but [KeyError] and [AttributeError]: [KeyError] exactly when some
    review lacks one of the fields read, wherever it stands in the list, and
    [AttributeError] exactly when no field is missing and some field feeding
    a date column is neither [None] nor a string nor a date. *)
Theorem X8_format_generic_exceptions
    (revs : list review) (dcs rks : list string) (i0 i5 : nat) :
  NoDup dcs → length rks = length dcs →
  dcs !! i0 = Some "Datetime" → dcs !! i5 = Some "Reply Datetime" →
  (∀ e, _format_generic revs dcs rks = Raise e → e = KeyError ∨ e = AttributeError)
  ∧ (_format_generic revs dcs rks = Raise KeyError ↔ missing_field revs rks)
  ∧ (_format_generic revs dcs rks = Raise AttributeError ↔
       ¬ missing_field revs rks ∧ bad_date_field revs rks i0 i5).
Proof.
  intros Hnd Hlen H0 H5.
  destruct (format_generic_raises revs dcs rks i0 i5 Hnd Hlen H0 H5)
    as (Hkinds & Hkey & Hattr & _).
  done.
Qed.

(** X8 at a review with a number for a date followed by a review without
    score: the missing field decides. *)
Lemma X8_witness_missing_field_wins :
  _format_generic [example_playstore_bad_date; example_playstore_no_score]
    playstore_dataset_cols playstore_revs_cols = Raise KeyError.
Proof.
  destruct (X8_format_generic_exceptions
              [example_playstore_bad_date; example_playstore_no_score]
              playstore_dataset_cols playstore_revs_cols 0 5
              playstore_cols_NoDup eq_refl eq_refl eq_refl) as (_ & Hkey & _).
  apply Hkey. exists example_playstore_no_score, "score".
  split_and!; [by right; left | | reflexivity].
  apply list_elem_of_In. simpl. tauto.
Defined.

(** X9: under the same conditions, [_format_generic] returns a table exactly
    when every review has every field read and every field feeding a date
    column is [None], a string or a date. *)
Theorem X9_format_generic_returns_iff_well_formed
    (revs : list review) (dcs rks : list string) (i0 i5 : nat) :
  NoDup dcs → length rks = length dcs →
  dcs !! i0 = Some "Datetime" → dcs !! i5 = Some "Reply Datetime" →
  (∃ t, _format_generic revs dcs rks = Ok t) ↔
  ¬ missing_field revs rks ∧ ¬ bad_date_field revs rks i0 i5.
Proof.
  intros Hnd Hlen H0 H5.
  destruct (format_generic_raises revs dcs rks i0 i5 Hnd Hlen H0 H5)
    as (_ & _ & _ & Hok).
  done.
Qed.

(** X9 at the Play Store example. *)
Lemma X9_witness_playstore_example :
  ¬ missing_field [example_playstore_review] playstore_revs_cols
  ∧ ¬ bad_date_field [example_playstore_review] playstore_revs_cols 0 5.
Proof.
  apply (X9_format_generic_returns_iff_well_formed [example_playstore_review]
           playstore_dataset_cols playstore_revs_cols 0 5
           playstore_cols_NoDup eq_refl eq_refl eq_refl).
  eexists. by vm_compute.
Defined.

(** ** A preprocessing that raises *)

Section PreprocessingRaises.
Variable strptime : string → string → result datetime.
Implicit Types (rev : review) (revs : list review).

Local Abbreviation preprocess := (preprocess_appstore_review strptime).

Lemma preprocess_Raise_state rev rev' e :
  preprocess rev = (rev', Raise e) → half_preprocessed rev rev'.
Proof.
  unfold preprocess_appstore_review, mut_bind, getitem, setitem, has_key, mut_lift.
  destruct (rev !! "title") as [title|]; [|intros [= <- _]; by left].
  destruct (rev !! "review") as [text|]; [|intros [= <- _]; by left].
  destruct (py_add title text) as [joined|]; [|intros [= <- _]; by left].
  destruct (bool_decide _).
  - destruct (<["review":=joined]> rev !! "developerResponse") as [response|];
      [|intros [= <- _]; right; left; by eexists].
    destruct (py_subscript response "body") as [body|];
      [|intros [= <- _]; right; left; by eexists].
    destruct (_ !! "developerResponse") as [response'|];
      [|intros [= <- _]; right; right; by eexists _, _].
    destruct (py_subscript response' "modified") as [modified|];
      [|intros [= <- _]; right; right; by eexists _, _].
    destruct (py_strptime strptime modified _) as [replied|];
      [done | intros [= <- _]; right; right; by eexists _, _].
  - done.
Qed.

Lemma preprocess_all_Raise revs revs' e :
  preprocess_appstore_reviews strptime revs = (revs', Raise e) →
  ∃ before rev after before' rev',
    revs = before ++ rev :: after
    ∧ revs' = before' ++ rev' :: after
    ∧ Forall2 (λ r r', preprocess r = (r', Ok ())) before before'
    ∧ preprocess rev = (rev', Raise e).
Proof.
  revert revs'. induction revs as [|rev revs IH]; intros revs'; simpl; [done|].
  destruct (preprocess rev) as [rev1 [[]|e1]] eqn:Hrev.
  - destruct (preprocess_appstore_reviews strptime revs) as [rest r] eqn:Hrest.
    intros [= <- ->].
    destruct (IH _ eq_refl) as (before & rev0 & after & before' & rev0' & -> & -> & Hbefore & Hraise).
    exists (rev :: before), rev0, after, (rev1 :: before'), rev0'.
    split_and!; [done | done | by constructor | done].
  - intros [= <- ->]. exists [], rev, revs, [], rev1.
    split_and!; [done | done | constructor | done].
Qed.
End PreprocessingRaises.

(** X10: when the preprocessing of an App Store review raises,
    [formate_appstore_reviews] raises that exception and leaves the list
    partly rewritten: the reviews before the failing one are preprocessed,
    those after it are as they were, and the failing one is as it was, or
    has its review text written, or its review text and its reply. *)
Theorem X10_appstore_formatting_failure_leaves_list_partly_rewritten
    (strptime : string → string → result datetime)
    (revs revs' : list review) (e : exn) :
  preprocess_appstore_reviews strptime revs = (revs', Raise e) →
  formate_appstore_reviews strptime revs = (revs', Raise e)
  ∧ ∃ before rev after before' rev',
      revs = before ++ rev :: after
      ∧ revs' = before' ++ rev' :: after
      ∧ Forall2 (λ r r', preprocess_appstore_review strptime r = (r', Ok ()))
          before before'
      ∧ preprocess_appstore_review strptime rev = (rev', Raise e)
      ∧ half_preprocessed rev rev'.
Proof.
  intros Hpre. split.
  - unfold formate_appstore_reviews. by rewrite Hpre.
  - destruct (preprocess_all_Raise _ _ _ _ Hpre)
      as (before & rev & after & before' & rev' & ? & ? & ? & Hraise).
    exists before, rev, after, before', rev'. split_and!; [done..|].
    by eapply preprocess_Raise_state.
Qed.

(** X10 at the example review followed by a review whose response has no
    "modified" entry and by the example once more. *)
Lemma X10_witness_response_without_date :
  formate_appstore_reviews strptime_iso
    [example_appstore_reply;
     <["developerResponse" := VDict {[ "body" := VStr "Hi" ]}]> example_appstore_reply;
     example_appstore_reply]
  = ([preprocessed example_appstore_reply (VStr "Great app") (VStr "Thank you")
        (VDatetime (Datetime 2024 2 29 8 30 0));
      <["replyContent" := VStr "Hi"]>
        (<["review" := VStr "Great app"]>
           (<["developerResponse" := VDict {[ "body" := VStr "Hi" ]}]>
              example_appstore_reply));
      example_appstore_reply],
     Raise KeyError).
Proof.
  apply (X10_appstore_formatting_failure_leaves_list_partly_rewritten strptime_iso).
  reflexivity.
Defined.

(** ** The handler with its branches *)

Section BranchFacts.
Context {Payload Writer : Type}.
Variable fetch_appstore : string → string → result (list review).
Variable fetch_playstore : string → result (list review).
Variable strptime : string → string → result datetime.
Variable send_data_frame : Writer → string → result Payload.

Lemma appstore_branch_raises app_id app_name :
  ∃ e, appstore_branch fetch_appstore strptime send_data_frame app_id app_name
       = Raise e.
Proof.
  unfold appstore_branch.
  destruct (fetch_appstore app_name app_id) as [revs|e]; simpl; [|by exists e].
  destruct (formate_appstore_reviews strptime revs).2 as [t|e]; simpl;
    [by exists AttributeError | by exists e].
Qed.

Lemma playstore_branch_raises app_id :
  ∃ e, playstore_branch fetch_playstore send_data_frame app_id = Raise e.
Proof.
  unfold playstore_branch.
  destruct (fetch_playstore app_id) as [revs|e]; [|by exists e].
  change (∃ e, ((format_playstore_reviews revs).2 ≫= λ dataset,
                  ndarray_to_csv dataset ≫= λ writer : Writer,
                    send_data_frame writer
                      ("playstore_" +:+ PyStr.replace "." "_" app_id +:+ "_reviews.csv"))
               = Raise e).
  destruct (format_playstore_reviews revs).2 as [t|e]; [by exists AttributeError | by exists e].
Qed.
End BranchFacts.

(** X11: the handler as [app.py] writes it never returns a file: a trigger
    without a submission, an unknown URL, a failing extraction, retrieval or
    formatting raise, and when all of these succeed the formatted dataset, a
    numpy array, has no [to_csv] to hand to [send_data_frame], which raises
    [AttributeError]. *)
Theorem X11_handler_never_returns_a_file {Payload Writer : Type}
    (fetch_appstore : string → string → result (list review))
    (fetch_playstore : string → result (list review))
    (strptime : string → string → result datetime)
    (send_data_frame : Writer → string → result Payload) :
  (∀ n_clicks n_submits url,
     ∃ e, start_review_scraping_app fetch_appstore fetch_playstore strptime
            send_data_frame n_clicks n_submits url = Raise e)
  ∧ (∀ app_id app_name revs t,
       fetch_appstore app_name app_id = Ok revs →
       (formate_appstore_reviews strptime revs).2 = Ok t →
       appstore_branch fetch_appstore strptime send_data_frame app_id app_name
       = Raise AttributeError)
  ∧ (∀ app_id revs t,
       fetch_playstore app_id = Ok revs →
       (format_playstore_reviews revs).2 = Ok t →
       playstore_branch fetch_playstore send_data_frame app_id
       = Raise AttributeError).
Proof.
  split_and!.
  - intros n_clicks n_submits url.
    unfold start_review_scraping_app, start_review_scraping.
    destruct (_ && _); [by eexists|].
    destruct (PyStr.contains "apps.apple.com" url).
    { destruct (get_app_id_name_from_appstore_url url) as [[app_id app_name]|e];
        simpl; [apply appstore_branch_raises | by eexists]. }
    destruct (PyStr.contains "play.google.com" url); [|by eexists].
    destruct (get_app_id_from_playstore_url url) as [app_id|e];
      simpl; [apply playstore_branch_raises | by eexists].
  - intros app_id app_name revs t Hfetch Hfmt.
    unfold appstore_branch. by rewrite Hfetch; simpl; rewrite Hfmt.
  - intros app_id revs t Hfetch Hfmt.
    unfold playstore_branch. rewrite Hfetch. simpl in *. by rewrite Hfmt.
Qed.

(** X11 at the App Store URL of the docstring, with a service that returns
    the example review. *)
Lemma X11_witness_appstore_url :
  start_review_scraping_app
    (λ _ _, Ok [example_appstore_reply]) (λ _, Ok []) strptime_iso
    (λ (writer : ()) file_name, Ok file_name) (Some 1) (Some 0)
    "https://apps.apple.com/it/app/enel-x-way/id1377291789"
  = Raise AttributeError.
Proof.
  destruct (X11_handler_never_returns_a_file
              (λ _ _, Ok [example_appstore_reply]) (λ _, Ok []) strptime_iso
              (λ (writer : ()) file_name, Ok file_name)) as (_ & Happ & _).
  exact (Happ "1377291789" "enel-x-way" [example_appstore_reply] _ eq_refl eq_refl).
Defined.

(** ** The CSV text *)

Section CsvFacts.
Implicit Types (s t : string) (c : ascii) (fields : list string).

Lemma sum_list_with_fmap {A B : Type} (f : B → nat) (g : A → B) (l : list A) :
  sum_list_with f (g <$> l) = sum_list_with (λ x, f (g x)) l.
Proof. induction l as [|x l IH]; simpl; [done | f_equal; exact IH]. Qed.

Lemma sum_list_with_ext {A : Type} (f g : A → nat) (l : list A) :
  (∀ x, f x = g x) → sum_list_with f l = sum_list_with g l.
Proof.
  intros Hfg. induction l as [|x l IH]; simpl; [done|].
  rewrite Hfg. f_equal. exact IH.
Qed.

Lemma sum_list_with_zero {A : Type} (f : A → nat) (l : list A) :
  Forall (λ x, f x = 0%nat) l → sum_list_with f l = 0%nat.
Proof.
  induction 1 as [|x l Hx _ IH]; simpl; [done|]. rewrite Hx. exact IH.
Qed.

Lemma count_char_app c s t :
  count_char c (s +:+ t) = (count_char c s + count_char c t)%nat.
Proof. induction s as [|a s IH]; simpl; [done | rewrite IH; lia]. Qed.

Lemma count_double_quotes_DQ s :
  count_char DQ (double_quotes s) = (2 * count_char DQ s)%nat.
Proof.
  induction s as [|a s IH]; [done|]. cbn [double_quotes count_char].
  destruct (Ascii.eqb_spec a DQ) as [->|Hne].
  - cbn [count_char]. rewrite Ascii.eqb_refl, IH. lia.
  - cbn [count_char]. destruct (Ascii.eqb_spec a DQ); [done|]. rewrite IH. lia.
Qed.

Lemma count_double_quotes_other c s :
  c ≠ DQ → count_char c (double_quotes s) = count_char c s.
Proof.
  intros Hc. induction s as [|a s IH]; [done|]. cbn [double_quotes count_char].
  destruct (Ascii.eqb_spec a DQ) as [->|Hne].
  - cbn [count_char]. destruct (Ascii.eqb_spec DQ c); [congruence|]. rewrite IH. lia.
  - cbn [count_char]. by rewrite IH.
Qed.

Lemma needs_quotes_false_DQ s : needs_quotes s = false → count_char DQ s = 0%nat.
Proof.
  induction s as [|a s IH]; [done|]. cbn [needs_quotes count_char].
  intros [[[[_ Ha]%orb_false_elim _]%orb_false_elim _]%orb_false_elim Hs]%orb_false_elim.
  by rewrite Ha, IH.
Qed.

Lemma csv_field_DQ_even s : Nat.even (count_char DQ (csv_field s)) = true.
Proof.
  unfold csv_field. destruct (needs_quotes s) eqn:Hs.
  - cbn [count_char]. rewrite Ascii.eqb_refl, count_char_app, count_double_quotes_DQ.
    cbn [count_char]. rewrite Ascii.eqb_refl.
    replace (1 + (2 * count_char DQ s + (1 + 0)))%nat
      with (2 * (1 + count_char DQ s))%nat by lia.
    apply Nat.even_spec. by eexists.
  - by rewrite needs_quotes_false_DQ.
Qed.

Lemma csv_field_LF s : count_char LF (csv_field s) = count_char LF s.
Proof.
  unfold csv_field. destruct (needs_quotes s); [|done].
  cbn [count_char]. rewrite count_char_app, count_double_quotes_other by done.
  simpl. lia.
Qed.

Lemma join_comma_DQ_even fields :
  Forall (λ s, Nat.even (count_char DQ s) = true) fields →
  Nat.even (count_char DQ (PyStr.join "," fields)) = true.
Proof.
  induction 1 as [|s fields Hs _ IH]; [done|].
  destruct fields as [|s' fields]; [done|].
  change (PyStr.join "," (s :: s' :: fields))
    with (s +:+ String "," (PyStr.join "," (s' :: fields))).
  rewrite count_char_app. cbn [count_char].
  replace (Ascii.eqb "," DQ) with false by done.
  cbn [Nat.add]. by rewrite Nat.even_add, Hs, IH.
Qed.

Lemma join_comma_LF fields :
  count_char LF (PyStr.join "," fields) = sum_list_with (count_char LF) fields.
Proof.
  induction fields as [|s fields IH]; [done|].
  destruct fields as [|s' fields]; [simpl; lia|].
  change (PyStr.join "," (s :: s' :: fields))
    with (s +:+ String "," (PyStr.join "," (s' :: fields))).
  rewrite count_char_app. cbn [count_char].
  replace (Ascii.eqb "," LF) with false by done.
  rewrite IH. simpl. lia.
Qed.

Lemma csv_row_DQ_even fields : Nat.even (count_char DQ (csv_row fields)) = true.
Proof.
  unfold csv_row. rewrite count_char_app.
  replace (count_char DQ (String CR (String LF ""))) with 0%nat by done.
  rewrite Nat.add_0_r.
  assert (Nat.even (count_char DQ (PyStr.join "," (csv_field <$> fields))) = true)
    as Hjoin.
  { apply join_comma_DQ_even, Forall_fmap, Forall_forall.
    intros s _. apply csv_field_DQ_even. }
  destruct fields as [|[|a s] [|s' fields]]; done.
Qed.

Lemma csv_row_LF fields :
  count_char LF (csv_row fields) = S (sum_list_with (count_char LF) fields).
Proof.
  unfold csv_row. rewrite count_char_app.
  replace (count_char LF (String CR (String LF ""))) with 1%nat by done.
  assert (count_char LF (PyStr.join "," (csv_field <$> fields))
          = sum_list_with (count_char LF) fields) as Hjoin.
  { rewrite join_comma_LF, sum_list_with_fmap.
    apply sum_list_with_ext, csv_field_LF. }
  destruct fields as [|[|a s] [|s' fields]]; rewrite <- ?Hjoin; simpl; lia.
Qed.
End CsvFacts.

Lemma numpy_to_str_DQ_even (repr_dict : gmap string pyval → string) (dataset : table) :
  Nat.even (count_char DQ (numpy_to_str repr_dict dataset)) = true.
Proof.
  induction dataset as [|row dataset IH]; [done|].
  cbn [numpy_to_str foldr]. fold (numpy_to_str repr_dict dataset).
  by rewrite count_char_app, Nat.even_add, csv_row_DQ_even, IH.
Qed.

Lemma numpy_to_str_LF (repr_dict : gmap string pyval → string) (dataset : table) :
  count_char LF (numpy_to_str repr_dict dataset)
  = (length dataset
     + sum_list_with (λ cell, count_char LF (csv_text repr_dict cell))
         (concat dataset))%nat.
Proof.
  induction dataset as [|row dataset IH]; [done|].
  cbn [numpy_to_str foldr]. fold (numpy_to_str repr_dict dataset).
  rewrite count_char_app, csv_row_LF, IH. simpl concat.
  rewrite sum_list_with_app, sum_list_with_fmap. simpl length. lia.
Qed.

(** X12: the quote characters of the CSV text of any table come in pairs:
    a field is written either without any quote character or between two,
    with every quote character inside it written twice. *)
Theorem X12_csv_quotes_are_balanced
    (repr_dict : gmap string pyval → string) (dataset : table) :
  Nat.Even (count_char DQ (numpy_to_str repr_dict dataset)).
Proof. apply Nat.even_spec, numpy_to_str_DQ_even. Qed.

(** X13: the CSV text of any table has one line feed for every row and one
    for every line feed in the text of a cell: writing adds line feeds only
    as row ends. *)
Theorem X13_csv_line_feeds
    (repr_dict : gmap string pyval → string) (dataset : table) :
  count_char LF (numpy_to_str repr_dict dataset)
  = (length dataset
     + sum_list_with (λ cell, count_char LF (csv_text repr_dict cell))
         (concat dataset))%nat.
Proof. apply numpy_to_str_LF. Qed.

(** ** The CSV text of a formatted table *)

Lemma count_char_no_newline s : no_newline s → count_char LF s = 0%nat.
Proof.
  unfold no_newline. induction s as [|a s IH]; [done|]. simpl.
  intros [Ha Hs]%not_elem_of_cons.
  destruct (Ascii.eqb_spec a LF); [congruence | by apply IH].
Qed.

Lemma digit_char_eqb_LF n : Ascii.eqb (digit_char (n mod 10)) LF = false.
Proof.
  pose proof (digit_char_is_digit n) as Hd.
  destruct (Ascii.eqb_spec (digit_char (n mod 10)) LF) as [Heq|]; [|done].
  by rewrite Heq in Hd.
Qed.

Lemma decimal_digits_LF fuel n acc :
  count_char LF (decimal_digits fuel n acc) = count_char LF acc.
Proof.
  revert n acc. induction fuel as [|fuel IH]; intros n acc; cbn [decimal_digits].
  - cbn [count_char]. by rewrite digit_char_eqb_LF.
  - destruct (n <? 10); [|rewrite IH]; cbn [count_char];
      by rewrite digit_char_eqb_LF.
Qed.

Lemma str_of_int_LF n : count_char LF (str_of_int n) = 0%nat.
Proof.
  unfold str_of_int. destruct (n <? 0); cbn [count_char];
    by rewrite decimal_digits_LF.
Qed.

Lemma strftime_LF d : count_char LF (strftime_dmY d) = 0%nat.
Proof.
  unfold strftime_dmY, zfill4, zfill2. simpl String.append.
  cbn [count_char]. by rewrite !digit_char_eqb_LF.
Qed.

Lemma plain_data_cell_LF repr_dict (is_date : bool) v cell :
  cell_of is_date (strip_newlines v) cell → plain_cell cell →
  count_char LF (csv_text repr_dict cell) = 0%nat.
Proof.
  intros Hof [->|[[s ->]|[n ->]]]; simpl; [done| |apply str_of_int_LF].
  destruct is_date; simpl in Hof.
  - apply strip_newlines_date_cases in Hof as [[_ [= ->]]|(d & _ & [= ->])];
      [done | apply strftime_LF].
  - symmetry in Hof. by apply count_char_no_newline, (strip_newlines_no_newline v).
Qed.

Lemma csv_of_formatted_LF repr_dict revs dcs rks i0 i5 t :
  NoDup dcs → length rks = length dcs →
  dcs !! i0 = Some "Datetime" → dcs !! i5 = Some "Reply Datetime" →
  Forall (λ dk, count_char LF dk = 0%nat) dcs →
  _format_generic revs dcs rks = Ok t →
  Forall (Forall plain_cell) t →
  count_char LF (numpy_to_str repr_dict t) = S (length revs).
Proof.
  intros Hnd Hlen H0 H5 Hnames Ht Hplain.
  rewrite numpy_to_str_LF, sum_list_with_zero.
  - destruct (format_generic_review_cells _ _ _ _ _ _ Hnd Hlen H0 H5 Ht)
      as (body & -> & Hbody & _). simpl. lia.
  - apply Forall_concat, Forall_lookup. intros [|i] row Hrow.
    + destruct (format_generic_review_cells _ _ _ _ _ _ Hnd Hlen H0 H5 Ht)
        as (body & -> & _). simplify_eq/=.
      by apply Forall_fmap.
    + apply Forall_lookup. intros j cell Hcell.
      destruct (table_data_cell _ _ _ _ _ _ _ _ _ _ Hnd Hlen H0 H5 Ht Hrow Hcell)
        as (rev & rk & v & _ & _ & _ & Hof).
      eapply plain_data_cell_LF; [done|].
      rewrite Forall_lookup in Hplain. specialize (Hplain _ _ Hrow).
      rewrite Forall_lookup in Hplain. by eapply Hplain.
Qed.

(** X14: the CSV text of a table returned by either formatter whose cells
    are strings, integers or [None] has exactly one line feed for the header
    and one for each review: with the newlines removed from the text fields,
    every line feed of the file ends a row. *)
Theorem X14_csv_of_formatted_table_has_one_line_per_review
    (repr_dict : gmap string pyval → string)
    (strptime : string → string → result datetime) :
  (∀ revs revs' t,
     formate_appstore_reviews strptime revs = (revs', Ok t) →
     Forall (Forall plain_cell) t →
     count_char LF (numpy_to_str repr_dict t) = S (length revs))
  ∧ (∀ revs revs' t,
       format_playstore_reviews revs = (revs', Ok t) →
       Forall (Forall plain_cell) t →
       count_char LF (numpy_to_str repr_dict t) = S (length revs)).
Proof.
  split.
  - intros revs revs' t [Hpre Ht]%formate_appstore_Ok Hplain.
    apply preprocess_all_Ok, Forall2_length in Hpre. rewrite Hpre.
    eapply (csv_of_formatted_LF _ revs' _ appstore_revs_cols 0 5);
      [apply appstore_cols_NoDup | done.. | | done | done].
    by repeat constructor.
  - intros revs revs' t [= <- Ht] Hplain.
    eapply (csv_of_formatted_LF _ revs _ playstore_revs_cols 0 5);
      [apply playstore_cols_NoDup | done.. | | done | done].
    by repeat constructor.
Qed.

(** X14 at the Play Store example, whose text holds two line feeds. *)
Lemma X14_witness_playstore_example :
  count_char LF
    (numpy_to_str (λ _, "")
       [[VStr "Datetime"; VStr "Username"; VStr "Review"; VStr "Rating";
         VStr "Reply"; VStr "Reply Datetime"; VStr "Thumbs Up"];
        [VStr "05/03/2023"; VStr "ann"; VStr "abc"; VInt 4; VNone; VStr "";
         VInt 12]])
  = 2%nat.
Proof.
  destruct (X14_csv_of_formatted_table_has_one_line_per_review
              (λ _, "") strptime_iso) as [_ Hplay].
  apply (Hplay [example_playstore_review] [example_playstore_review]);
    [by vm_compute|].
  repeat first [apply Forall_nil_2 | apply Forall_cons_2];
    unfold plain_cell; eauto.
Defined.
